(** * The authentication server (Express + MongoDB + bcryptjs + jsonwebtoken)

    A shallow embedding of the request handlers of the server file
    ([/api/register], [/api/login], [/api/profile], [/api/verify] and the
    [authenticateToken] middleware), with the [users] collection, the
    clock, the salt generator and the availability of the database made
    explicit as a world that every handler threads through. Requests are
    served one at a time: a handler runs to its answer before the next
    request is taken up.

    bcryptjs and jsonwebtoken are third-party packages: the handlers are
    written against their interfaces ([Bcrypt], [Jwt]); a reference
    implementation of each interface is given further down. *)

From Stdlib Require Import List String Ascii NArith ZArith Lia Bool.
From Stdlib Require Import DecimalString DecimalN.
Import ListNotations.
Local Open Scope string_scope.
Local Open Scope N_scope.

(** ** JSON values and HTTP responses *)

(** A MongoDB [ObjectId]; the driver hands out fresh ones. Its hexadecimal
    rendering in JSON and the matching [new ObjectId(hex)] are inverse to
    each other and are left out. *)
Definition ObjectId := N.

#[warnings="-register-all"]
Inductive JValue : Type :=
| JStr (s : string)
| JNum (n : N)
| JOid (o : ObjectId)
| JDate (ms : N)
| JObj (fields : list (string * JValue)).

(** [res.status(code).json(body)] *)
Record Response : Type := json { status : N; body : JValue }.

(** [{ message: m }] *)
Definition message (m : string) : JValue := JObj [("message", JStr m)].

(** ** JavaScript strings *)

(** A field of [req.body], or a header: absent ([undefined]) or a string,
    as the client sends them ([JSON.stringify({ name, email, password })]
    over [string]s). *)
Definition JsString := option string.

(** [!x] for such a value: [undefined] and [''] are falsy. *)
Definition falsy (x : JsString) : bool :=
  match x with
  | None => true
  | Some EmptyString => true
  | Some (String _ _) => false
  end.

(** The string held by a value already tested truthy. *)
Definition str (x : JsString) : string :=
  match x with
  | None => EmptyString
  | Some s => s
  end.

(** [s.split(sep)] for a one-character separator. *)
Fixpoint split (sep : ascii) (s : string) : list string :=
  match s with
  | EmptyString => [EmptyString]
  | String a rest =>
      if Ascii.eqb a sep then EmptyString :: split sep rest
      else match split sep rest with
           | [] => [String a EmptyString]
           | piece :: pieces => String a piece :: pieces
           end
  end.

(** Does character [c] occur in [s]? *)
Fixpoint occurs (c : ascii) (s : string) : bool :=
  match s with
  | EmptyString => false
  | String a rest => Ascii.eqb a c || occurs c rest
  end.

(** The part of [s] before the first [sep] and the part after it. *)
Fixpoint cut (sep : ascii) (s : string) : option (string * string) :=
  match s with
  | EmptyString => None
  | String a rest =>
      if Ascii.eqb a sep then Some (EmptyString, rest)
      else match cut sep rest with
           | Some (before, after) => Some (String a before, after)
           | None => None
           end
  end.

(** [s] with its byte at index [i] replaced by [c]. *)
Fixpoint replace_at (i : nat) (c : ascii) (s : string) : string :=
  match s, i with
  | EmptyString, _ => EmptyString
  | String _ rest, O => String c rest
  | String a rest, S j => String a (replace_at j c rest)
  end.

(** ** The documents of the [users] collection *)

Record UserDoc : Type := mkUser {
  u_id : ObjectId;
  u_name : string;
  u_email : string;
  u_password : string;
  u_createdAt : N
}.

(** A stored document as the driver returns it. *)
Definition doc_fields (u : UserDoc) : list (string * JValue) :=
  [("_id", JOid (u_id u));
   ("name", JStr (u_name u));
   ("email", JStr (u_email u));
   ("password", JStr (u_password u));
   ("createdAt", JDate (u_createdAt u))].

(** [{ projection: { k: 0 } }] *)
Definition project_out (k : string) (fields : list (string * JValue))
  : list (string * JValue) :=
  filter (fun kv => negb (String.eqb (fst kv) k)) fields.

(** ** Tokens *)

(** What the handlers pass to [jwt.sign]. *)
Record Payload : Type := mkPayload { p_userId : ObjectId; p_email : string }.

(** What [jwt.verify] decodes: the payload with the issued-at and
    expires-at stamps (seconds) that [jwt.sign] added. *)
Record Claims : Type := mkClaims {
  c_userId : ObjectId;
  c_email : string;
  c_iat : N;
  c_exp : N
}.

Definition claims_json (c : Claims) : JValue :=
  JObj [("userId", JOid (c_userId c));
        ("email", JStr (c_email c));
        ("iat", JNum (c_iat c));
        ("exp", JNum (c_exp c))].

(** The ways [jwt.verify] fails. *)
Inductive TokenError : Type := MalformedToken | InvalidSignature | Expired.

(** [expiresIn: '7d'], in seconds. *)
Definition expiresIn_7d : N := 7 * 24 * 60 * 60.

(** The claims of a token signed at clock [now_ms] (milliseconds). *)
Definition issued_claims (p : Payload) (expiresIn now_ms : N) : Claims :=
  let iat := now_ms / 1000 in
  mkClaims (p_userId p) (p_email p) iat (iat + expiresIn).

(** ** The third-party packages *)

(** bcryptjs: [hash(password, rounds)] with the salt it draws made an
    argument, and [compare(password, hash)]. *)
Class Bcrypt : Type := {
  bcrypt_hash : string -> N -> N -> string;
  bcrypt_compare : string -> string -> bool
}.

(** jsonwebtoken: [sign(payload, secret, { expiresIn })] and
    [verify(token, secret)], each with the clock it reads made an argument.
    [sign] throws ([None]) and [verify] reports an error when the secret is
    [undefined]. *)
Class Jwt : Type := {
  jwt_sign : Payload -> option string -> N -> N -> option string;
  jwt_verify : string -> option string -> N -> TokenError + Claims
}.

(** ** The world a request runs in *)

Inductive StoreOp : Type :=
| FindByEmail (email : string)
| FindById (id : ObjectId)
| InsertOne (email : string).

Record World : Type := mkWorld {
  users : list UserDoc;      (* db.collection('users') *)
  next_oid : ObjectId;       (* the driver's ObjectId generator *)
  clock : N;                 (* Date.now() *)
  entropy : N;               (* the generator bcrypt draws salts from *)
  faults : list bool;        (* for each coming database call: does it throw? *)
  oplog : list StoreOp       (* the database calls made so far, latest first *)
}.

Definition set_users (us : list UserDoc) (w : World) : World :=
  mkWorld us (next_oid w) (clock w) (entropy w) (faults w) (oplog w).
Definition set_next_oid (i : ObjectId) (w : World) : World :=
  mkWorld (users w) i (clock w) (entropy w) (faults w) (oplog w).
Definition set_clock (t : N) (w : World) : World :=
  mkWorld (users w) (next_oid w) t (entropy w) (faults w) (oplog w).
Definition set_entropy (e : N) (w : World) : World :=
  mkWorld (users w) (next_oid w) (clock w) e (faults w) (oplog w).
Definition set_faults (fs : list bool) (w : World) : World :=
  mkWorld (users w) (next_oid w) (clock w) (entropy w) fs (oplog w).
Definition set_oplog (l : list StoreOp) (w : World) : World :=
  mkWorld (users w) (next_oid w) (clock w) (entropy w) (faults w) l.

(** ** Computations that read and write the world and may throw *)

Inductive Outcome (A : Type) : Type :=
| Returned (a : A)
| Thrown.
Arguments Returned {A} a.
Arguments Thrown {A}.

Definition M (A : Type) : Type := World -> Outcome A * World.

Definition ret {A} (a : A) : M A := fun w => (Returned a, w).

Definition throw {A} : M A := fun w => (Thrown, w).

Definition bind {A B} (m : M A) (k : A -> M B) : M B :=
  fun w =>
    match m w with
    | (Returned a, w') => k a w'
    | (Thrown, w') => (Thrown, w')
    end.

Notation "x <- m ;; k" := (bind m (fun x => k))
  (at level 61, m at next level, right associativity).

(** A route handler: it always answers. *)
Definition Handler : Type := World -> Response * World.

(** [try { ... } catch (error) { res.status(..).json(..) }] *)
Definition try_catch (m : M Response) (on_error : Response) : Handler :=
  fun w =>
    match m w with
    | (Returned r, w') => (r, w')
    | (Thrown, w') => (on_error, w')
    end.

(** ** The database *)

(** Does the coming database call throw? *)
Definition faulty (w : World) : bool := hd false (faults w).

(** The world once the database has been called with [op]. *)
Definition called (op : StoreOp) (w : World) : World :=
  set_faults (tl (faults w)) (set_oplog (op :: oplog w) w).

(** A call to the database: it is logged, then throws if the connection
    is faulty, and otherwise runs. *)
Definition store_call {A} (op : StoreOp) (run : World -> A * World) : M A :=
  fun w =>
    if faulty w then (Thrown, called op w)
    else let (a, w') := run (called op w) in (Returned a, w').

(** [db.collection('users').findOne({ email })]: exact match on the string. *)
Definition findOne_email (email : string) : M (option UserDoc) :=
  store_call (FindByEmail email)
    (fun w => (find (fun u => String.eqb (u_email u) email) (users w), w)).

(** [db.collection('users').findOne({ _id }, { projection: { k: 0 } })] *)
Definition findOne_id (id : ObjectId) (k : string)
  : M (option (list (string * JValue))) :=
  store_call (FindById id)
    (fun w =>
       (option_map (fun u => project_out k (doc_fields u))
          (find (fun u => N.eqb (u_id u) id) (users w)), w)).

(** The driver stamps the document with a fresh [_id] and appends it. *)
Definition insert_doc (name email password : string) (createdAt : N)
  (w : World) : ObjectId * World :=
  let id := next_oid w in
  (id, set_next_oid (id + 1)
         (set_users (users w ++ [mkUser id name email password createdAt]) w)).

(** [db.collection('users').insertOne(user)]: returns [insertedId]. *)
Definition insertOne (name email password : string) (createdAt : N)
  : M ObjectId :=
  store_call (InsertOne email) (insert_doc name email password createdAt).

(** [new Date()] *)
Definition Date_now : M N := fun w => (Returned (clock w), w).

Section Server.

Context {bcrypt : Bcrypt} {jwt : Jwt}.

(** [const JWT_SECRET = process.env.JWT_SECRET] *)
Variable JWT_SECRET : option string.

(** [await bcrypt.hash(password, saltRounds)] *)
Definition hash (password : string) (saltRounds : N) : M string :=
  fun w => (Returned (bcrypt_hash password saltRounds (entropy w)),
            set_entropy (entropy w + 1) w).

(** [jwt.sign(payload, JWT_SECRET, { expiresIn })] *)
Definition sign (payload : Payload) (expiresIn : N) : M string :=
  fun w =>
    match jwt_sign payload JWT_SECRET expiresIn (clock w) with
    | Some token => ret token w
    | None => throw w
    end.

(** *** The middleware *)

(** [authHeader && authHeader.split(' ')[1]] *)
Definition bearer (authHeader : JsString) : JsString :=
  match authHeader with
  | None => None
  | Some EmptyString => Some EmptyString
  | Some h => nth_error (split " " h) 1
  end.

Definition authenticateToken (authHeader : JsString) (next : Claims -> Handler)
  : Handler :=
  fun w =>
    let token := bearer authHeader in
    if falsy token then (json 401 (message "Access token required"), w)
    else
      match jwt_verify (str token) JWT_SECRET (clock w) with
      | inl _ => (json 403 (message "Invalid or expired token"), w)
      | inr user => next user w
      end.

(** *** The routes *)

Record RegisterBody : Type := mkRegister {
  r_email : JsString;
  r_password : JsString;
  r_name : JsString
}.

Record LoginBody : Type := mkLogin {
  l_email : JsString;
  l_password : JsString
}.

(** The object both [/api/register] and [/api/login] answer with. *)
Definition auth_body (msg token : string) (id : ObjectId) (name email : string)
  : JValue :=
  JObj [("message", JStr msg);
        ("token", JStr token);
        ("user", JObj [("id", JOid id); ("name", JStr name); ("email", JStr email)])].

(** [app.post('/api/register', ...)] *)
Definition register (req : RegisterBody) : Handler :=
  try_catch
    (let email := r_email req in
     let password := r_password req in
     let name := r_name req in
     if falsy email || falsy password || falsy name then
       ret (json 400 (message "All fields are required"))
     else
       existingUser <- findOne_email (str email) ;;
       match existingUser with
       | Some _ => ret (json 400 (message "User already exists"))
       | None =>
           let saltRounds := 10 in
           hashedPassword <- hash (str password) saltRounds ;;
           createdAt <- Date_now ;;
           insertedId <- insertOne (str name) (str email) hashedPassword createdAt ;;
           token <- sign (mkPayload insertedId (str email)) expiresIn_7d ;;
           ret (json 201
                  (auth_body "User created successfully" token
                     insertedId (str name) (str email)))
       end)
    (json 500 (message "Server error")).

(** [app.post('/api/login', ...)] *)
Definition login (req : LoginBody) : Handler :=
  try_catch
    (let email := l_email req in
     let password := l_password req in
     if falsy email || falsy password then
       ret (json 400 (message "Email and password are required"))
     else
       user <- findOne_email (str email) ;;
       match user with
       | None => ret (json 400 (message "Invalid credentials"))
       | Some user =>
           if negb (bcrypt_compare (str password) (u_password user)) then
             ret (json 400 (message "Invalid credentials"))
           else
             token <- sign (mkPayload (u_id user) (u_email user)) expiresIn_7d ;;
             ret (json 200
                    (auth_body "Login successful" token
                       (u_id user) (u_name user) (u_email user)))
       end)
    (json 500 (message "Server error")).

(** [app.get('/api/profile', authenticateToken, ...)] *)
Definition profile (authHeader : JsString) : Handler :=
  authenticateToken authHeader (fun claims =>
    try_catch
      (user <- findOne_id (c_userId claims) "password" ;;
       match user with
       | None => ret (json 404 (message "User not found"))
       | Some user => ret (json 200 (JObj [("user", JObj user)]))
       end)
      (json 500 (message "Server error"))).

(** [app.get('/api/verify', authenticateToken, ...)] *)
Definition verify (authHeader : JsString) : Handler :=
  authenticateToken authHeader (fun claims w =>
    (json 200 (JObj [("message", JStr "Token is valid"); ("user", claims_json claims)]), w)).

(** *** The server as a state machine *)

Inductive Request : Type :=
| PostRegister (req : RegisterBody)
| PostLogin (req : LoginBody)
| GetProfile (authHeader : JsString)
| GetVerify (authHeader : JsString).

Definition handle (r : Request) : Handler :=
  match r with
  | PostRegister req => register req
  | PostLogin req => login req
  | GetProfile h => profile h
  | GetVerify h => verify h
  end.

(** Between requests the clock advances. *)
Inductive Event : Type :=
| Call (r : Request)
| Tick (ms : N).

Definition step (w : World) (ev : Event) : World :=
  match ev with
  | Call r => snd (handle r w)
  | Tick ms => set_clock (clock w + ms) w
  end.

Definition run (evs : list Event) (w : World) : World := fold_left step evs w.

End Server.

(** ** Vocabulary of the properties *)


(** The number of stored documents whose email is exactly [email]. *)
Definition count_email (email : string) (us : list UserDoc) : nat :=
  List.length (filter (fun u => String.eqb (u_email u) email) us).

(** None of the next [calls] database calls throws. *)
Definition db_ok (calls : nat) (w : World) : bool :=
  forallb negb (firstn calls (faults w)).

(** Does key [k] occur anywhere in a JSON value? *)
Fixpoint mentions_key (k : string) (v : JValue) : bool :=
  match v with
  | JObj fields =>
      (fix any (fs : list (string * JValue)) : bool :=
         match fs with
         | [] => false
         | (k', v') :: rest => String.eqb k' k || mentions_key k v' || any rest
         end) fields
  | _ => false
  end.

(** The header the client sends: [`Bearer ${token}`]. *)
Definition Bearer (token : string) : JsString := Some ("Bearer " ++ token).

(** Case folding, the email normalisation the specification speaks of.
    The server has no counterpart of it: [findOne({ email })] compares the
    strings as they are. *)
Definition lower_ascii (a : ascii) : ascii :=
  let n := N_of_ascii a in
  if (65 <=? n) && (n <=? 90) then ascii_of_N (n + 32) else a.

Fixpoint normalize (s : string) : string :=
  match s with
  | EmptyString => EmptyString
  | String a rest => String (lower_ascii a) (normalize rest)
  end.

Definition count_normalized (email : string) (us : list UserDoc) : nat :=
  List.length (filter (fun u => String.eqb (normalize (u_email u)) (normalize email)) us).

(** What the handlers rely on from jsonwebtoken: signing with a secret
    succeeds, a token travels in a header (it is not empty and holds no
    space), and a token verifies, before its expiry, to the claims it was
    issued with. *)
Class JwtLawful (jwt : Jwt) : Prop := {
  sign_succeeds : forall p key e now,
    key <> EmptyString -> jwt_sign p (Some key) e now <> None;
  sign_transport : forall p s e now tok,
    jwt_sign p s e now = Some tok -> tok <> EmptyString /\ occurs " " tok = false;
  verify_sign : forall p s e now tok later,
    jwt_sign p s e now = Some tok ->
    later / 1000 < now / 1000 + e ->
    jwt_verify tok s later = inr (issued_claims p e now)
}.

(** ** Reference implementations of the packages *)

(** Modelled from the spec: how a claim set sits inside a token, which is
    jsonwebtoken's business and not part of the repository. The
    specification asks for a self-contained claim set {subject, email,
    issued-at, expires-at} carried by the token; here it is written out as
    text and sent as hexadecimal digits. *)
Module Codec.

(** Two hexadecimal digits per character: the transport-safe alphabet of
    the reference tokens. *)
Definition hex_digit (n : N) : ascii :=
  match n with
  | 0 => "0" | 1 => "1" | 2 => "2" | 3 => "3" | 4 => "4" | 5 => "5"
  | 6 => "6" | 7 => "7" | 8 => "8" | 9 => "9" | 10 => "a" | 11 => "b"
  | 12 => "c" | 13 => "d" | 14 => "e" | _ => "f"
  end%char.

Definition hex_value (a : ascii) : option N :=
  let n := N_of_ascii a in
  if (48 <=? n) && (n <=? 57) then Some (n - 48)
  else if (97 <=? n) && (n <=? 102) then Some (n - 87)
  else None.

Definition hex_hi (a : ascii) : ascii := hex_digit (N_of_ascii a / 16).
Definition hex_lo (a : ascii) : ascii := hex_digit (N_of_ascii a mod 16).

Definition unhex_pair (h l : ascii) : option ascii :=
  match hex_value h, hex_value l with
  | Some x, Some y => Some (ascii_of_N (16 * x + y))
  | _, _ => None
  end.

Fixpoint hex (s : string) : string :=
  match s with
  | EmptyString => EmptyString
  | String a rest => String (hex_hi a) (String (hex_lo a) (hex rest))
  end.

Fixpoint unhex (s : string) : option string :=
  match s with
  | EmptyString => Some EmptyString
  | String _ EmptyString => None
  | String h (String l rest) =>
      match unhex_pair h l, unhex rest with
      | Some a, Some t => Some (String a t)
      | _, _ => None
      end
  end.

(** Decimal numerals. *)
Definition dec (n : N) : string := NilEmpty.string_of_uint (N.to_uint n).

Definition undec (s : string) : option N :=
  option_map N.of_uint (NilEmpty.uint_of_string s).

(** A claim set as text: the three numbers, then the email, which may
    hold any character. *)
Definition serialise (c : Claims) : string :=
  dec (c_userId c) ++ "," ++ dec (c_iat c) ++ "," ++ dec (c_exp c) ++ ","
  ++ c_email c.

Definition parse (s : string) : option Claims :=
  match cut "," s with
  | Some (uid, s1) =>
      match cut "," s1 with
      | Some (iat, s2) =>
          match cut "," s2 with
          | Some (exp, email) =>
              match undec uid, undec iat, undec exp with
              | Some u, Some i, Some e => Some (mkClaims u email i e)
              | _, _, _ => None
              end
          | None => None
          end
      | None => None
      end
  | None => None
  end.

Definition encode_claims (c : Claims) : string := hex (serialise c).

Definition decode_claims (b : string) : option Claims :=
  match unhex b with
  | Some s => parse s
  | None => None
  end.

End Codec.

Module JwtRef.

Import Codec.

Section WithMac.

(** The keyed tag function: [mac secret text]. *)
Variable mac : string -> string -> string.

Definition signature (secret body : string) : string := hex (mac secret body).

(** Modelled from the spec: jsonwebtoken's [sign], a third-party package
    whose code is not part of the repository. After [issueToken]: embed
    issued-at = now and expires-at = now + validity window, and sign the
    claim set with the server secret. The token is the encoded claim set,
    a dot, and the signature segment. Without a secret, [sign] throws. *)
Definition sign_token (p : Payload) (secret : option string) (expiresIn now_ms : N)
  : option string :=
  match secret with
  | Some (String _ _ as key) =>
      let body := encode_claims (issued_claims p expiresIn now_ms) in
      Some (body ++ "." ++ signature key body)
  | _ => None
  end.

(** Modelled from the spec: jsonwebtoken's [verify], a third-party package
    whose code is not part of the repository. After [verify] steps 1 to 4:
    reject malformed tokens, then tokens whose signature does not match
    the server secret, then tokens past their expiry; otherwise return the
    embedded claims. *)
Definition verify_token (token : string) (secret : option string) (now_ms : N)
  : TokenError + Claims :=
  match secret with
  | Some (String _ _ as key) =>
      match split "." token with
      | [body; sig] =>
          if String.eqb sig (signature key body) then
            match decode_claims body with
            | Some c =>
                if c_exp c <=? now_ms / 1000 then inl Expired else inr c
            | None => inl MalformedToken
            end
          else inl InvalidSignature
      | _ => inl MalformedToken
      end
  | _ => inl InvalidSignature
  end.

Definition jsonwebtoken : Jwt :=
  {| jwt_sign := sign_token; jwt_verify := verify_token |}.

End WithMac.

End JwtRef.

Module Standin.

Import Codec.

(** Stand-ins with no cryptographic strength, for running the server on
    concrete requests. *)

Definition mac (secret text : string) : string := secret ++ "/" ++ text.

Definition jsonwebtoken : Jwt := JwtRef.jsonwebtoken mac.

Definition digest (password : string) (rounds salt : N) : string :=
  dec rounds ++ "$" ++ dec salt ++ "$" ++ hex password.

Definition compare (password hashed : string) : bool :=
  match cut "$" hashed with
  | Some (rounds, rest) =>
      match cut "$" rest with
      | Some (salt, _) =>
          match undec rounds, undec salt with
          | Some r, Some s => String.eqb hashed (digest password r s)
          | _, _ => false
          end
      | None => false
      end
  | None => false
  end.

Definition bcryptjs : Bcrypt :=
  {| bcrypt_hash := digest; bcrypt_compare := compare |}.

End Standin.

(** ** A sample run *)

Module Sample.

Definition secret : option string := Some "server-secret".

(** An empty collection at clock 1000000 ms with a healthy database. *)
Definition w0 : World := mkWorld [] 1 1000000 7 [] [].

Definition ada : RegisterBody :=
  mkRegister (Some "ada@example.com") (Some "s3cret!") (Some "Ada").

Definition Ada : RegisterBody :=
  mkRegister (Some "Ada@Example.com") (Some "s3cret!") (Some "Ada").

(** The server on the stand-in packages, with and without its secret. *)
Definition srv_register := @register Standin.bcryptjs Standin.jsonwebtoken secret.
Definition srv_login := @login Standin.bcryptjs Standin.jsonwebtoken secret.
Definition srv_verify := @verify Standin.jsonwebtoken secret.
Definition srv_step := @step Standin.bcryptjs Standin.jsonwebtoken secret.
Definition srv_run := @run Standin.bcryptjs Standin.jsonwebtoken secret.
Definition srv_register_no_secret :=
  @register Standin.bcryptjs Standin.jsonwebtoken None.

(** The token a 201 or 200 answer carries. *)
Definition token_of (r : Response) : string :=
  match body r with
  | JObj [_; (_, JStr t); _] => t
  | _ => EmptyString
  end.

(** The token Ada is issued on registering, and the world then. *)
Definition token : string := token_of (fst (srv_register ada w0)).
Definition w1 : World := snd (srv_register ada w0).

(** Eight days later. *)
Definition eight_days_ms : N := 8 * 24 * 60 * 60 * 1000.
Definition w_late : World := set_clock (clock w1 + eight_days_ms) w1.

(** The token with the last byte of its signature segment altered: to
    another digit, and to a dot. *)
Definition last_byte : nat := String.length token - 1.
Definition token_altered : string := replace_at last_byte "0" token.

End Sample.

(** ** The routes on whatever body arrives *)

(** A value as [express.json()] parses it out of a request body. *)
#[warnings="-register-all"]
Inductive Parsed : Type :=
| PNull
| PBool (b : bool)
| PNum (z : Z)
| PStr (s : string)
| PArr (items : list Parsed)
| PObj (props : list (string * Parsed)).

(** [v.k] as destructuring reads it: [undefined] when [v] is no object or
    has no such key; of a repeated key the last one counts. *)
Definition prop (k : string) (v : Parsed) : option Parsed :=
  match v with
  | PObj props =>
      option_map snd (find (fun kv => String.eqb (fst kv) k) (rev props))
  | _ => None
  end.

(** [!v]: [undefined], [null], [false], [0] and [''] are falsy. *)
Definition falsy_any (v : option Parsed) : bool :=
  match v with
  | None => true
  | Some PNull => true
  | Some (PBool b) => negb b
  | Some (PNum z) => Z.eqb z 0
  | Some (PStr EmptyString) => true
  | Some _ => false
  end.

(** A field read as the typed routes take it: absent or a string. *)
Definition as_text (v : option Parsed) : option JsString :=
  match v with
  | None => Some None
  | Some (PStr s) => Some (Some s)
  | Some _ => None
  end.

Section AnyBody.

Context {bcrypt : Bcrypt} {jwt : Jwt}.

Variable JWT_SECRET : option string.

(** [findOne({ email })] for an email that is not a string. How MongoDB
    matches a number, an array or an operator object is left open. *)
Variable find_other : option Parsed -> M (option UserDoc).

(** The rest of [/api/register] (insert, sign, answer) for a name or an
    email that is not a string. The collection of this model holds
    strings, so what the database keeps of such a value is left open. *)
Variable store_other : option Parsed -> option Parsed -> string -> N -> M Response.

(** [db.collection('users').findOne({ email })] *)
Definition findOne_any (email : option Parsed) : M (option UserDoc) :=
  match email with
  | Some (PStr e) => findOne_email e
  | _ => find_other email
  end.


(** [await bcrypt.compare(password, hash)]: bcryptjs rejects a password
    that is not a string. *)
Definition compare_any (password : option Parsed) (hashed : string) : M bool :=
  match password with
  | Some (PStr p) => ret (bcrypt_compare p hashed)
  | _ => throw
  end.


(** [app.post('/api/login', ...)] on [req.body] as it is. *)
Definition login_any (body : option Parsed) : Handler :=
  try_catch
    (match body with
     | None | Some PNull => throw
     | Some body =>
         let email := prop "email" body in
         let password := prop "password" body in
         if falsy_any email || falsy_any password then
           ret (json 400 (message "Email and password are required"))
         else
           user <- findOne_any email ;;
           match user with
           | None => ret (json 400 (message "Invalid credentials"))
           | Some user =>
               isValidPassword <- compare_any password (u_password user) ;;
               if negb isValidPassword then
                 ret (json 400 (message "Invalid credentials"))
               else
                 token <- sign JWT_SECRET (mkPayload (u_id user) (u_email user))
                            expiresIn_7d ;;
                 ret (json 200
                        (auth_body "Login successful" token
                           (u_id user) (u_name user) (u_email user)))
           end
     end)
    (json 500 (message "Server error")).

End AnyBody.


(** ** Further vocabulary *)

(** Does the header carry a token for [authenticateToken]: a first space
    followed by a character that is not a space? *)
Definition presents_token (h : JsString) : bool :=
  match h with
  | Some s =>
      match cut " " s with
      | Some (_, String ch _) => negb (Ascii.eqb ch " ")
      | _ => false
      end
  | None => false
  end.

(** The messages the server puts in its error answers. *)
Definition error_messages : list string :=
  ["All fields are required"; "User already exists";
   "Email and password are required"; "Invalid credentials";
   "Access token required"; "Invalid or expired token";
   "User not found"; "Server error"].

(** What [login] relies on from bcryptjs: a password compares equal to
    its own hash. *)
Definition BcryptLawful (bcrypt : Bcrypt) : Prop :=
  forall password rounds salt,
    bcrypt_compare password (bcrypt_hash password rounds salt) = true.

(** What expiry relies on from jsonwebtoken: once the clock has reached
    the expires-at stamp, [verify] reports an error. *)
Definition JwtExpires (jwt : Jwt) : Prop :=
  forall p s e now tok later,
    jwt_sign p s e now = Some tok ->
    now / 1000 + e <= later / 1000 ->
    exists err, jwt_verify tok s later = inl err.

(** The world a registration that goes through leaves behind: two
    database calls made, a salt drawn, the document appended. *)
Definition registered (name email hashed : string) (w : World) : World :=
  snd (insert_doc name email hashed (clock w)
         (called (InsertOne email)
            (set_entropy (entropy w + 1) (called (FindByEmail email) w)))).

(** The number of calls to [/api/register] among the events. *)
Definition registrations (evs : list Event) : nat :=
  List.length (filter (fun ev => match ev with
                                 | Call (PostRegister _) => true
                                 | _ => false
                                 end) evs).

(** ** The client: the authentication context of the React application *)

(** [v.k] for a parsed JSON value: [undefined] when [v] is no object or
    has no such key; of a repeated key the last one counts. *)
Definition field (k : string) (v : JValue) : option JValue :=
  match v with
  | JObj fields =>
      option_map snd (find (fun kv => String.eqb (fst kv) k) (rev fields))
  | _ => None
  end.

(** Truthiness of a value that may be [undefined] or [null]. *)
Definition truthy (v : option JValue) : bool :=
  match v with
  | None => false
  | Some (JStr EmptyString) => false
  | Some (JNum 0) => false
  | Some _ => true
  end.

(** [v || d] *)
Definition or_else (v : option JValue) (d : JValue) : JValue :=
  match v with
  | Some x => if truthy v then x else d
  | None => d
  end.

(** An object literal; a property whose value is [undefined] reads the
    same as an absent one and is left out. *)
Fixpoint object (props : list (string * option JValue)) : list (string * JValue) :=
  match props with
  | [] => []
  | (k, Some v) :: rest => (k, v) :: object rest
  | (_, None) :: rest => object rest
  end.

(** [response.ok] *)
Definition ok (r : Response) : bool := (200 <=? status r) && (status r <=? 299).

(** What becomes of a [fetch]: the request reaches the server and the
    answer comes back, or the request is lost, or the answer is; in the
    last two cases [fetch] rejects. *)
Inductive Net : Type := Delivered | RequestLost | ResponseLost.

(** The provider's state ([useState]) and the [token] entry of
    [localStorage]. *)
Record Client : Type := mkClient {
  cl_user : option JValue;      (* user: User | null *)
  cl_loading : bool;
  cl_error : option JValue;     (* error: string | null *)
  cl_token : JsString            (* localStorage.getItem('token') *)
}.

Definition setUser (u : option JValue) (c : Client) : Client :=
  mkClient u (cl_loading c) (cl_error c) (cl_token c).
Definition setLoading (b : bool) (c : Client) : Client :=
  mkClient (cl_user c) b (cl_error c) (cl_token c).
Definition setError (e : option JValue) (c : Client) : Client :=
  mkClient (cl_user c) (cl_loading c) e (cl_token c).
(** [localStorage.setItem('token', t)] and [localStorage.removeItem('token')] *)
Definition setItem_token (t : string) (c : Client) : Client :=
  mkClient (cl_user c) (cl_loading c) (cl_error c) (Some t).
Definition removeItem_token (c : Client) : Client :=
  mkClient (cl_user c) (cl_loading c) (cl_error c) None.

(** The provider as first rendered, over what the browser has stored. *)
Definition first_render (stored : JsString) : Client :=
  mkClient None true None stored.

(** What [AuthContainer] renders. *)
Inductive Screen : Type :=
| Spinner
| ShowDashboard
| ShowLoginForm
| ShowRegisterForm.

(** [AuthContainer] of the application, with its [isLogin] state. *)
Definition AuthContainer (isLogin : bool) (c : Client) : Screen :=
  if cl_loading c then Spinner
  else if truthy (cl_user c) then ShowDashboard
  else if isLogin then ShowLoginForm
  else ShowRegisterForm.

Module AuthContext.

Section Provider.

Context {bcrypt : Bcrypt} {jwt : Jwt}.

(** The server the client talks to. *)
Variable JWT_SECRET : option string.

(** [String(v)] for a value that is not a string, as [setItem] coerces
    what it is given; left open. *)
Variable String_other : option JValue -> string.

Definition String_ (v : option JValue) : string :=
  match v with
  | Some (JStr s) => s
  | _ => String_other v
  end.

(** [await fetch(...)] against the server: the answer, unless [fetch]
    rejects. *)
Definition fetch (net : Net) (r : Request) (w : World) : option Response * World :=
  match net with
  | Delivered => let (resp, w') := handle JWT_SECRET r w in (Some resp, w')
  | RequestLost => (None, w)
  | ResponseLost => (None, snd (handle JWT_SECRET r w))
  end.

(** [verifyToken(token)] *)
Definition verifyToken (net : Net) (token : string) (c : Client) (w : World)
  : Client * World :=
  let (response, w') := fetch net (GetVerify (Bearer token)) w in
  let c' :=
    match response with
    | Some response =>
        if ok response then
          let data := body response in
          match field "user" data with
          | Some user =>
              setUser (Some (JObj (object
                 [("id", field "userId" user);
                  ("name", Some (or_else (field "name" user) (JStr "User")));
                  ("email", field "email" user)]))) c
          | None => removeItem_token c
          end
        else removeItem_token c
    | None => removeItem_token c
    end in
  (setLoading false c', w').

(** The effect run on first render. *)
Definition useEffect (net : Net) (c : Client) (w : World) : Client * World :=
  let token := cl_token c in
  if falsy token then (setLoading false c, w)
  else verifyToken net (str token) c w.

(** [login(email, password)] *)
Definition login (net : Net) (email password : string) (c : Client) (w : World)
  : Client * World :=
  let c := setError None (setLoading true c) in
  let (response, w') :=
    fetch net (PostLogin (mkLogin (Some email) (Some password))) w in
  let c' :=
    match response with
    | Some response =>
        let data := body response in
        if ok response then
          setUser (field "user" data)
            (setItem_token (String_ (field "token" data)) c)
        else setError (Some (or_else (field "message" data) (JStr "Login failed"))) c
    | None => setError (Some (JStr "Network error. Please try again.")) c
    end in
  (setLoading false c', w').

(** [register(name, email, password)] *)
Definition register (net : Net) (name email password : string) (c : Client)
  (w : World) : Client * World :=
  let c := setError None (setLoading true c) in
  let (response, w') :=
    fetch net (PostRegister (mkRegister (Some email) (Some password) (Some name))) w in
  let c' :=
    match response with
    | Some response =>
        let data := body response in
        if ok response then
          setUser (field "user" data)
            (setItem_token (String_ (field "token" data)) c)
        else
          setError (Some (or_else (field "message" data) (JStr "Registration failed"))) c
    | None => setError (Some (JStr "Network error. Please try again.")) c
    end in
  (setLoading false c', w').

(** [logout()] *)
Definition logout (c : Client) : Client := setUser None (removeItem_token c).

End Provider.

End AuthContext.

(** ** The sample run, continued *)

Module Visit.

Import Sample.

(** [String(v)] of the sample browser for what is not a string. *)
Definition undefined_text : option JValue -> string := fun _ => "undefined".

(** Ada and Bob register, Ada once more, and both log in. *)
Definition busy_day : list Event :=
  [Call (PostRegister ada);
   Tick 1000;
   Call (PostRegister
           (mkRegister (Some "bob@example.com") (Some "hunter2") (Some "Bob")));
   Call (PostRegister ada);
   Call (PostLogin (mkLogin (Some "ada@example.com") (Some "s3cret!")));
   Call (GetVerify (Bearer token))].


(** A database that matches no document to an email that is not a string
    and refuses to store a name or an email that is not a string. *)
Definition no_match : option Parsed -> M (option UserDoc) := fun _ => ret None.

Definition any_login := @login_any Standin.bcryptjs Standin.jsonwebtoken secret no_match.

Definition ada_12345 : Parsed :=
  PObj [("email", PStr "ada@example.com"); ("password", PNum 12345)].
Definition bob_12345 : Parsed :=
  PObj [("email", PStr "bob@example.com"); ("password", PNum 12345)].

End Visit.

(** * Properties *)

(** ** Strings *)

Lemma occurs_app (c : ascii) (a b : string) :
  occurs c (a ++ b) = occurs c a || occurs c b.
Proof.
  induction a as [|x a IH]; simpl; [reflexivity|].
  now rewrite IH, orb_assoc.
Qed.

Lemma split_without (sep : ascii) (s : string) :
  occurs sep s = false -> split sep s = [s].
Proof.
  induction s as [|a s IH]; simpl; [reflexivity|].
  intros H. apply orb_false_iff in H as [Ha Hs].
  now rewrite Ha, (IH Hs).
Qed.

Lemma split_append (sep : ascii) (a b : string) :
  occurs sep a = false -> split sep (a ++ String sep b) = a :: split sep b.
Proof.
  induction a as [|x a IH]; simpl.
  - intros _. now rewrite Ascii.eqb_refl.
  - intros H. apply orb_false_iff in H as [Hx Ha].
    now rewrite Hx, (IH Ha).
Qed.

Lemma cut_append (sep : ascii) (a b : string) :
  occurs sep a = false -> cut sep (a ++ String sep b) = Some (a, b).
Proof.
  induction a as [|x a IH]; simpl.
  - intros _. now rewrite Ascii.eqb_refl.
  - intros H. apply orb_false_iff in H as [Hx Ha].
    now rewrite Hx, (IH Ha).
Qed.

(** The client's header carries the token back: [split(' ')[1]] of
    [`Bearer ${token}`] is the token when it holds no space. *)
Lemma bearer_Bearer (tok : string) :
  occurs " " tok = false -> bearer (Bearer tok) = Some tok.
Proof.
  intros H. unfold Bearer, bearer.
  change ("Bearer " ++ tok) with (String "B" ("earer" ++ String " " tok)).
  cbv beta iota.
  change (String "B" ("earer" ++ String " " tok)) with ("Bearer" ++ String " " tok).
  rewrite split_append by reflexivity.
  now rewrite (split_without _ _ H).
Qed.

(** ** The codec of the reference tokens *)

Module CodecFacts.

Import Codec.

Ltac each_char a := destruct a as [[] [] [] [] [] [] [] []]; reflexivity.

Lemma unhex_pair_hex (a : ascii) : unhex_pair (hex_hi a) (hex_lo a) = Some a.
Proof. each_char a. Qed.

Lemma hex_hi_plain (a : ascii) :
  (Ascii.eqb (hex_hi a) " " || Ascii.eqb (hex_hi a) "." || Ascii.eqb (hex_hi a) "$")%bool = false.
Proof. each_char a. Qed.

Lemma hex_lo_plain (a : ascii) :
  (Ascii.eqb (hex_lo a) " " || Ascii.eqb (hex_lo a) "." || Ascii.eqb (hex_lo a) "$")%bool = false.
Proof. each_char a. Qed.

Lemma unhex_hex (s : string) : unhex (hex s) = Some s.
Proof.
  induction s as [|a s IH]; [reflexivity|].
  cbn [hex unhex]. now rewrite unhex_pair_hex, IH.
Qed.

Lemma hex_plain (c : ascii) (s : string) :
  c = " "%char \/ c = "."%char -> occurs c (hex s) = false.
Proof.
  intros Hc. induction s as [|a s IH]; [reflexivity|].
  cbn [hex occurs]. rewrite IH.
  pose proof (hex_hi_plain a) as Hh. pose proof (hex_lo_plain a) as Hl.
  apply orb_false_iff in Hh as [Hh _]. apply orb_false_iff in Hh as [Hh1 Hh2].
  apply orb_false_iff in Hl as [Hl _]. apply orb_false_iff in Hl as [Hl1 Hl2].
  destruct Hc as [-> | ->].
  - now rewrite Hh1, Hl1.
  - now rewrite Hh2, Hl2.
Qed.

Lemma digits_plain (c : ascii) (d : Decimal.uint) :
  c = ","%char \/ c = "$"%char -> occurs c (NilEmpty.string_of_uint d) = false.
Proof.
  intros Hc. induction d; simpl; try rewrite IHd;
    destruct Hc as [-> | ->]; reflexivity.
Qed.

Lemma undec_dec (n : N) : undec (dec n) = Some n.
Proof.
  unfold undec, dec. rewrite NilEmpty.usu. simpl.
  now rewrite DecimalN.Unsigned.of_to.
Qed.

Lemma parse_serialise (c : Claims) : parse (serialise c) = Some c.
Proof.
  unfold parse, serialise.
  repeat match goal with
         | |- context [ "," ++ ?x ] => change ("," ++ x) with (String "," x)
         end.
  do 3 (rewrite cut_append by (apply digits_plain; now left); cbv iota).
  rewrite !undec_dec. now destruct c.
Qed.

Lemma decode_encode (c : Claims) : decode_claims (encode_claims c) = Some c.
Proof.
  unfold decode_claims, encode_claims.
  now rewrite unhex_hex, parse_serialise.
Qed.

End CodecFacts.

(** ** The reference tokens *)

Module JwtRefFacts.

Import Codec CodecFacts.

Section WithMac.

Variable mac : string -> string -> string.

(** A token is its claims segment, a dot, and its signature segment. *)
Lemma sign_segments p secret e now tok :
  JwtRef.sign_token mac p secret e now = Some tok ->
  exists key, secret = Some key /\ key <> EmptyString /\
    tok = encode_claims (issued_claims p e now) ++ "."
          ++ JwtRef.signature mac key (encode_claims (issued_claims p e now)).
Proof.
  unfold JwtRef.sign_token. destruct secret as [[|a key]|]; try discriminate.
  intros [= <-]. exists (String a key). repeat split. discriminate.
Qed.

Lemma split_segments (c : Claims) (sig : string) :
  occurs "." sig = false ->
  split "." (encode_claims c ++ "." ++ sig) = [encode_claims c; sig].
Proof.
  intros Hsig. change ("." ++ sig) with (String "." sig).
  rewrite split_append by (apply hex_plain; now right).
  now rewrite (split_without _ _ Hsig).
Qed.

(** What [verify] answers on the two segments of a well-shaped token. *)
Lemma verify_segments (c : Claims) (sig key : string) (now : N) :
  key <> EmptyString ->
  occurs "." sig = false ->
  JwtRef.verify_token mac (encode_claims c ++ "." ++ sig) (Some key) now =
    if String.eqb sig (JwtRef.signature mac key (encode_claims c)) then
      if c_exp c <=? now / 1000 then inl Expired else inr c
    else inl InvalidSignature.
Proof.
  intros Hkey Hsig. unfold JwtRef.verify_token.
  destruct key as [|a key]; [congruence|].
  rewrite split_segments by assumption.
  now rewrite decode_encode.
Qed.

Lemma verify_issued p secret e now tok later :
  JwtRef.sign_token mac p secret e now = Some tok ->
  JwtRef.verify_token mac tok secret later =
    if now / 1000 + e <=? later / 1000 then inl Expired
    else inr (issued_claims p e now).
Proof.
  intros Hs. destruct (sign_segments _ _ _ _ _ Hs) as (key & -> & Hkey & ->).
  rewrite verify_segments; try assumption.
  - now rewrite String.eqb_refl.
  - apply hex_plain. now right.
Qed.

Lemma reference_lawful : JwtLawful (JwtRef.jsonwebtoken mac).
Proof.
  split; cbn [jwt_sign jwt_verify JwtRef.jsonwebtoken].
  - intros p [|a key] e now Hkey; [congruence | discriminate].
  - intros p s e now tok Hs.
    destruct (sign_segments _ _ _ _ _ Hs) as (key & _ & _ & ->). split.
    + unfold encode_claims, serialise. destruct (dec _); discriminate.
    + rewrite occurs_app. change ("." ++ ?x) with (String "." x).
      cbn [occurs]. unfold JwtRef.signature, encode_claims.
      rewrite !hex_plain by now left. reflexivity.
  - intros p s e now tok later Hs Hlt.
    rewrite (verify_issued _ _ _ _ _ _ Hs).
    apply N.leb_gt in Hlt. now rewrite Hlt.
Qed.

End WithMac.

End JwtRefFacts.

(** ** The handlers, path by path *)

Section ServerFacts.

Context {bcrypt : Bcrypt} {jwt : Jwt}.

Variable JWT_SECRET : option string.

Ltac step_through :=
  unfold register, login, profile, verify, authenticateToken, try_catch, bind,
    findOne_email, findOne_id, insertOne, store_call, hash, sign, Date_now,
    ret, throw.

(** [register] as one decision tree over the request and the world. *)
Lemma register_paths (req : RegisterBody) (w : World) :
  register JWT_SECRET req w =
    let email := str (r_email req) in
    let name := str (r_name req) in
    if falsy (r_email req) || falsy (r_password req) || falsy (r_name req) then
      (json 400 (message "All fields are required"), w)
    else if faulty w then
      (json 500 (message "Server error"), called (FindByEmail email) w)
    else
      let w1 := called (FindByEmail email) w in
      match find (fun u => String.eqb (u_email u) email) (users w) with
      | Some _ => (json 400 (message "User already exists"), w1)
      | None =>
          let hashed := bcrypt_hash (str (r_password req)) 10 (entropy w) in
          let w2 := set_entropy (entropy w + 1) w1 in
          if faulty w2 then
            (json 500 (message "Server error"), called (InsertOne email) w2)
          else
            let w3 := snd (insert_doc name email hashed (clock w)
                             (called (InsertOne email) w2)) in
            match jwt_sign (mkPayload (next_oid w) email) JWT_SECRET
                    expiresIn_7d (clock w) with
            | Some token =>
                (json 201 (auth_body "User created successfully" token
                             (next_oid w) name email), w3)
            | None => (json 500 (message "Server error"), w3)
            end
      end.
Proof.
  step_through. cbv zeta.
  destruct (falsy (r_email req) || falsy (r_password req) || falsy (r_name req));
    [reflexivity|].
  destruct (faulty w); [reflexivity|]. cbn [fst snd users called set_faults set_oplog].
  destruct (find _ (users w)); [reflexivity|].
  cbn.
  destruct (faulty _); [reflexivity|]. cbn.
  destruct (jwt_sign _ _ _ _); reflexivity.
Qed.

(** [login] as one decision tree over the request and the world. *)
Lemma login_paths (req : LoginBody) (w : World) :
  login JWT_SECRET req w =
    let email := str (l_email req) in
    if falsy (l_email req) || falsy (l_password req) then
      (json 400 (message "Email and password are required"), w)
    else if faulty w then
      (json 500 (message "Server error"), called (FindByEmail email) w)
    else
      let w1 := called (FindByEmail email) w in
      match find (fun u => String.eqb (u_email u) email) (users w) with
      | None => (json 400 (message "Invalid credentials"), w1)
      | Some user =>
          if bcrypt_compare (str (l_password req)) (u_password user) then
            match jwt_sign (mkPayload (u_id user) (u_email user)) JWT_SECRET
                    expiresIn_7d (clock w) with
            | Some token =>
                (json 200 (auth_body "Login successful" token
                             (u_id user) (u_name user) (u_email user)), w1)
            | None => (json 500 (message "Server error"), w1)
            end
          else (json 400 (message "Invalid credentials"), w1)
      end.
Proof.
  step_through. cbv zeta.
  destruct (falsy (l_email req) || falsy (l_password req)); [reflexivity|].
  destruct (faulty w); [reflexivity|]. cbn [fst snd users called set_faults set_oplog].
  destruct (find _ (users w)) as [user|]; [|reflexivity].
  destruct (bcrypt_compare _ _); [|reflexivity]. cbn.
  destruct (jwt_sign _ _ _ _); reflexivity.
Qed.

(** The protected routes past the middleware. *)
Lemma profile_paths (h : JsString) (w : World) :
  profile JWT_SECRET h w =
    if falsy (bearer h) then (json 401 (message "Access token required"), w)
    else
      match jwt_verify (str (bearer h)) JWT_SECRET (clock w) with
      | inl _ => (json 403 (message "Invalid or expired token"), w)
      | inr claims =>
          let w1 := called (FindById (c_userId claims)) w in
          if faulty w then (json 500 (message "Server error"), w1)
          else
            match find (fun u => N.eqb (u_id u) (c_userId claims)) (users w) with
            | None => (json 404 (message "User not found"), w1)
            | Some user =>
                (json 200 (JObj [("user",
                   JObj [("_id", JOid (u_id user));
                         ("name", JStr (u_name user));
                         ("email", JStr (u_email user));
                         ("createdAt", JDate (u_createdAt user))])]), w1)
            end
      end.
Proof.
  step_through.
  destruct (falsy (bearer h)); [reflexivity|].
  destruct (jwt_verify _ _ _) as [err|claims]; [reflexivity|]. cbv zeta.
  destruct (faulty w); [reflexivity|]. cbn [fst snd users called set_faults set_oplog].
  destruct (find _ (users w)); reflexivity.
Qed.

Lemma verify_paths (h : JsString) (w : World) :
  verify JWT_SECRET h w =
    if falsy (bearer h) then (json 401 (message "Access token required"), w)
    else
      match jwt_verify (str (bearer h)) JWT_SECRET (clock w) with
      | inl _ => (json 403 (message "Invalid or expired token"), w)
      | inr claims =>
          (json 200 (JObj [("message", JStr "Token is valid");
                           ("user", claims_json claims)]), w)
      end.
Proof. reflexivity. Qed.



(** ** Input validation *)


(** ** Registration and the collection *)

(** What [register] does to the collection: nothing, or it appends one
    document whose email was not there. *)
Lemma register_users (req : RegisterBody) (w : World) :
  users (snd (register JWT_SECRET req w)) = users w
  \/ (find (fun u => String.eqb (u_email u) (str (r_email req))) (users w) = None
      /\ exists hashed,
           users (snd (register JWT_SECRET req w)) =
             (users w ++ [mkUser (next_oid w) (str (r_name req)) (str (r_email req))
                            hashed (clock w)])%list).
Proof.
  rewrite register_paths. cbv zeta.
  destruct (falsy (r_email req) || falsy (r_password req) || falsy (r_name req));
    [now left|].
  destruct (faulty w); [now left|].
  destruct (find _ (users w)) eqn:Hfind; [now left|].
  destruct (faulty _); [now left|].
  right. split; [reflexivity|]. eexists.
  destruct (jwt_sign _ _ _ _); reflexivity.
Qed.

(** ** Login *)

(** On string fields: a [login] whose email matches no document and a
    [login] whose email matches a document but whose password does not
    compare equal get the same answer, 400 "Invalid credentials". *)
Lemma login_unknown_email_and_wrong_password_alike
  (req1 req2 : LoginBody) (w1 w2 : World) (user : UserDoc) :
  falsy (l_email req1) = false -> falsy (l_password req1) = false ->
  falsy (l_email req2) = false -> falsy (l_password req2) = false ->
  faulty w1 = false -> faulty w2 = false ->
  find (fun u => String.eqb (u_email u) (str (l_email req1))) (users w1) = None ->
  find (fun u => String.eqb (u_email u) (str (l_email req2))) (users w2) = Some user ->
  bcrypt_compare (str (l_password req2)) (u_password user) = false ->
  fst (login JWT_SECRET req1 w1) = fst (login JWT_SECRET req2 w2)
  /\ fst (login JWT_SECRET req1 w1) = json 400 (message "Invalid credentials").
Proof.
  intros He1 Hp1 He2 Hp2 Hf1 Hf2 Hnone Hsome Hcmp.
  rewrite !login_paths. cbv zeta.
  rewrite He1, Hp1, He2, Hp2, Hf1, Hf2, Hnone, Hsome, Hcmp. now split.
Qed.

(** ** Token verification *)

(** C8. When the token in the header passes [jwt.verify], [verify] answers
    200 with exactly the claims that [jwt.verify] decoded and leaves the
    world as it was, so no database call is made; and whatever the header,
    the answer is the same in every world showing the same clock, whatever
    the collection holds. *)
Theorem verify_returns_the_embedded_claims
  (h : JsString) (w : World) (claims : Claims) :
  falsy (bearer h) = false ->
  jwt_verify (str (bearer h)) JWT_SECRET (clock w) = inr claims ->
  verify JWT_SECRET h w =
    (json 200 (JObj [("message", JStr "Token is valid");
                     ("user", JObj [("userId", JOid (c_userId claims));
                                    ("email", JStr (c_email claims));
                                    ("iat", JNum (c_iat claims));
                                    ("exp", JNum (c_exp claims))])]), w)
  /\ (forall w2 : World, clock w2 = clock w ->
        fst (verify JWT_SECRET h w2) = fst (verify JWT_SECRET h w)).
Proof.
  intros Htok Hok. split.
  - rewrite verify_paths, Htok, Hok. reflexivity.
  - intros w2 Hclock. rewrite !verify_paths, Hclock.
    destruct (falsy (bearer h)); [reflexivity|].
    destruct (jwt_verify _ _ _); reflexivity.
Qed.

(** ** What the answers show of a document *)

Lemma handle_no_password_key (r : Request) (w : World) :
  mentions_key "password" (body (fst (handle JWT_SECRET r w))) = false.
Proof.
  destruct r as [req|req|h|h]; cbn [handle].
  - rewrite register_paths. cbv zeta.
    destruct (_ || _); [reflexivity|].
    destruct (faulty w); [reflexivity|].
    destruct (find _ _); [reflexivity|].
    destruct (faulty _); [reflexivity|].
    destruct (jwt_sign _ _ _ _); reflexivity.
  - rewrite login_paths. cbv zeta.
    destruct (_ || _); [reflexivity|].
    destruct (faulty w); [reflexivity|].
    destruct (find _ _); [|reflexivity].
    destruct (bcrypt_compare _ _); [|reflexivity].
    destruct (jwt_sign _ _ _ _); reflexivity.
  - rewrite profile_paths.
    destruct (falsy _); [reflexivity|].
    destruct (jwt_verify _ _ _); [reflexivity|]. cbv zeta.
    destruct (faulty w); [reflexivity|].
    destruct (find _ _); reflexivity.
  - rewrite verify_paths.
    destruct (falsy _); [reflexivity|].
    destruct (jwt_verify _ _ _); reflexivity.
Qed.

(** C9. A 201 of [register] carries a message, the token that [jwt.sign]
    made of the payload {new id, email} and nothing else, and the
    projection {id, name, email}; a 200 of [login] carries a message, the
    token that [jwt.sign] made of the payload {id, email} of the document
    found, and the projection {id, name, email} of that document; a 200 of
    [profile] carries a stored document read with the projection that
    drops the password field; [profile] answers 404 when the token is good,
    the database answers and no document has the token's id; and no answer
    of any route has a "password" key anywhere. The stored hash is in none
    of these bodies: each of their fields is named here, and the hash is
    not what any of them is computed from. *)
Theorem answers_never_carry_the_password_hash :
  (forall (req : RegisterBody) (w : World),
     status (fst (register JWT_SECRET req w)) = 201 ->
     exists token,
       jwt_sign (mkPayload (next_oid w) (str (r_email req))) JWT_SECRET
         expiresIn_7d (clock w) = Some token
       /\ body (fst (register JWT_SECRET req w)) =
            JObj [("message", JStr "User created successfully");
                  ("token", JStr token);
                  ("user", JObj [("id", JOid (next_oid w));
                                 ("name", JStr (str (r_name req)));
                                 ("email", JStr (str (r_email req)))])])
  /\
  (forall (req : LoginBody) (w : World),
     status (fst (login JWT_SECRET req w)) = 200 ->
     exists token user,
       find (fun u => String.eqb (u_email u) (str (l_email req))) (users w) = Some user
       /\ jwt_sign (mkPayload (u_id user) (u_email user)) JWT_SECRET
            expiresIn_7d (clock w) = Some token
       /\ body (fst (login JWT_SECRET req w)) =
            JObj [("message", JStr "Login successful");
                  ("token", JStr token);
                  ("user", JObj [("id", JOid (u_id user));
                                 ("name", JStr (u_name user));
                                 ("email", JStr (u_email user))])])
  /\
  (forall (h : JsString) (w : World),
     status (fst (profile JWT_SECRET h w)) = 200 ->
     exists user,
       In user (users w) /\
       body (fst (profile JWT_SECRET h w)) =
         JObj [("user", JObj (project_out "password" (doc_fields user)))] /\
       project_out "password" (doc_fields user) =
         [("_id", JOid (u_id user)); ("name", JStr (u_name user));
          ("email", JStr (u_email user)); ("createdAt", JDate (u_createdAt user))])
  /\
  (forall (h : JsString) (w : World) (claims : Claims),
     falsy (bearer h) = false ->
     jwt_verify (str (bearer h)) JWT_SECRET (clock w) = inr claims ->
     faulty w = false ->
     find (fun u => N.eqb (u_id u) (c_userId claims)) (users w) = None ->
     fst (profile JWT_SECRET h w) = json 404 (message "User not found"))
  /\
  (forall (r : Request) (w : World),
     mentions_key "password" (body (fst (handle JWT_SECRET r w))) = false).
Proof.
  repeat apply conj.
  - intros req w. rewrite register_paths. cbv zeta.
    destruct (_ || _); [discriminate|].
    destruct (faulty w); [discriminate|].
    destruct (find _ _); [discriminate|].
    destruct (faulty _); [discriminate|].
    destruct (jwt_sign _ _ _ _) as [token|]; [|discriminate].
    intros _. now exists token.
  - intros req w. rewrite login_paths. cbv zeta.
    destruct (_ || _); [discriminate|].
    destruct (faulty w); [discriminate|].
    destruct (find _ _) as [user|] eqn:Hfind; [|discriminate].
    destruct (bcrypt_compare _ _); [|discriminate].
    destruct (jwt_sign _ _ _ _) as [token|] eqn:Hsign; [|discriminate].
    intros _. exists token, user. now repeat split.
  - intros h w. rewrite profile_paths.
    destruct (falsy _); [discriminate|].
    destruct (jwt_verify _ _ _) as [err|claims]; [discriminate|]. cbv zeta.
    destruct (faulty w); [discriminate|].
    destruct (find _ _) as [user|] eqn:Hfind; [|discriminate].
    intros _. exists user. apply find_some in Hfind as [Hin _].
    now repeat split.
  - intros h w claims Htok Hok Hup Hnone.
    rewrite profile_paths, Htok, Hok. cbv zeta. now rewrite Hup, Hnone.
  - apply handle_no_password_key.
Qed.

(** ** A registration and the token it returns *)

Lemma db_ok_two (w : World) :
  db_ok 2 w = true -> faulty w = false /\ hd false (tl (faults w)) = false.
Proof.
  unfold db_ok, faulty. destruct (faults w) as [|[] [|[] fs]]; cbn; auto; discriminate.
Qed.

(** C1. With a secret configured and a lawful jsonwebtoken, a [register]
    with three non-empty fields and an email not yet in the collection,
    while the database answers, is answered 201 with a token; and [verify]
    with that token in the client's header, at once or at any later clock
    before the seven days are over, is answered 200 with claims whose email
    is the email given to [register]. *)
Theorem register_then_verify {lawful : JwtLawful jwt}
  (key : string) (req : RegisterBody) (w : World) (later : N) :
  JWT_SECRET = Some key -> key <> EmptyString ->
  falsy (r_name req) = false ->
  falsy (r_email req) = false ->
  falsy (r_password req) = false ->
  find (fun u => String.eqb (u_email u) (str (r_email req))) (users w) = None ->
  db_ok 2 w = true ->
  (clock w + later) / 1000 < clock w / 1000 + expiresIn_7d ->
  exists (token : string) (w' : World) (claims : Claims),
    register JWT_SECRET req w =
      (json 201 (auth_body "User created successfully" token (next_oid w)
                   (str (r_name req)) (str (r_email req))), w')
    /\ verify JWT_SECRET (Bearer token) (step JWT_SECRET w' (Tick later)) =
         (json 200 (JObj [("message", JStr "Token is valid");
                          ("user", claims_json claims)]),
          step JWT_SECRET w' (Tick later))
    /\ c_email claims = str (r_email req).
Proof.
  intros Hsecret Hkey Hname Hemail Hpassword Hfresh Hdb Hlater.
  apply db_ok_two in Hdb as [Hup1 Hup2].
  set (payload := mkPayload (next_oid w) (str (r_email req))).
  destruct (jwt_sign payload JWT_SECRET expiresIn_7d (clock w)) as [token|] eqn:Hsign.
  2:{ rewrite Hsecret in Hsign. now apply sign_succeeds in Hsign. }
  destruct (sign_transport _ _ _ _ _ Hsign) as [Hnonempty Hnospace].
  exists token. eexists. exists (issued_claims payload expiresIn_7d (clock w)).
  split; [|split].
  - rewrite register_paths. cbv zeta.
    rewrite Hname, Hemail, Hpassword, Hup1, Hfresh. cbn [orb].
    unfold faulty at 1. cbn [faults set_entropy called set_faults set_oplog].
    rewrite Hup2. fold payload. rewrite Hsign. reflexivity.
  - rewrite verify_paths, (bearer_Bearer _ Hnospace).
    destruct token as [|a token]; [congruence|]. cbn [falsy str].
    cbn [step clock set_clock snd insert_doc set_next_oid set_users called
         set_faults set_oplog set_entropy].
    now rewrite (verify_sign _ _ _ _ _ _ Hsign Hlater).
  - reflexivity.
Qed.

(** ** Registering an email twice *)

Lemma count_email_find (email : string) (us : list UserDoc) :
  find (fun u => String.eqb (u_email u) email) us = None <->
  count_email email us = 0%nat.
Proof.
  unfold count_email. induction us as [|u us IH]; cbn; [tauto|].
  destruct (String.eqb (u_email u) email); cbn; [|exact IH].
  split; discriminate.
Qed.

Lemma count_email_app (email : string) (us vs : list UserDoc) :
  count_email email (us ++ vs) = (count_email email us + count_email email vs)%nat.
Proof. unfold count_email. now rewrite filter_app, length_app. Qed.

(** Every route leaves the collection alone or appends one document whose
    email was not there. *)
Lemma handle_users (r : Request) (w : World) :
  users (snd (handle JWT_SECRET r w)) = users w
  \/ exists d,
       users (snd (handle JWT_SECRET r w)) = (users w ++ [d])%list
       /\ count_email (u_email d) (users w) = 0%nat.
Proof.
  destruct r as [req|req|h|h]; cbn [handle].
  - destruct (register_users req w) as [Hsame | [Hfresh [hashed Hadd]]];
      [now left|].
    right. eexists. split; [exact Hadd|]. now apply count_email_find.
  - left. rewrite login_paths. cbv zeta.
    destruct (_ || _); [reflexivity|].
    destruct (faulty w); [reflexivity|].
    destruct (find _ _); [|reflexivity].
    destruct (bcrypt_compare _ _); [|reflexivity].
    destruct (jwt_sign _ _ _ _); reflexivity.
  - left. rewrite profile_paths.
    destruct (falsy _); [reflexivity|].
    destruct (jwt_verify _ _ _); [reflexivity|]. cbv zeta.
    destruct (faulty w); [reflexivity|].
    destruct (find _ _); reflexivity.
  - left. rewrite verify_paths.
    destruct (falsy _); [reflexivity|].
    destruct (jwt_verify _ _ _); reflexivity.
Qed.

Lemma step_keeps_single (email : string) (w : World) (ev : Event) :
  count_email email (users w) = 1%nat ->
  count_email email (users (step JWT_SECRET w ev)) = 1%nat.
Proof.
  intros Hone. destruct ev as [r|ms]; cbn [step]; [|exact Hone].
  destruct (handle_users r w) as [-> | (d & -> & Hfresh)]; [exact Hone|].
  rewrite count_email_app, Hone. unfold count_email. cbn.
  destruct (String.eqb (u_email d) email) eqn:Heq; [|reflexivity].
  apply String.eqb_eq in Heq. rewrite Heq, Hone in Hfresh. discriminate.
Qed.

Lemma run_keeps_single (email : string) (evs : list Event) (w : World) :
  count_email email (users w) = 1%nat ->
  count_email email (users (run JWT_SECRET evs w)) = 1%nat.
Proof.
  revert w. induction evs as [|ev evs IH]; intros w Hone; [exact Hone|].
  cbn [run fold_left]. apply IH. now apply step_keeps_single.
Qed.

(** After a 201 the collection holds exactly one document with the email,
    and the three fields of the request were not empty. *)
Lemma register_created (req : RegisterBody) (w : World) :
  status (fst (register JWT_SECRET req w)) = 201 ->
  falsy (r_email req) = false
  /\ count_email (str (r_email req)) (users (snd (register JWT_SECRET req w))) = 1%nat.
Proof.
  rewrite register_paths. cbv zeta.
  destruct (falsy (r_email req)) eqn:Hemail; [discriminate|]. cbn [orb].
  destruct (_ || _); [discriminate|].
  destruct (faulty w); [discriminate|].
  destruct (find _ _) eqn:Hfresh; [discriminate|].
  destruct (faulty _); [discriminate|].
  destruct (jwt_sign _ _ _ _); [|discriminate].
  intros _. split; [reflexivity|].
  cbn [snd insert_doc users set_next_oid set_users called set_faults set_oplog
       set_entropy].
  apply count_email_find in Hfresh.
  rewrite count_email_app, Hfresh. unfold count_email. cbn.
  now rewrite String.eqb_refl.
Qed.

(** C2, as the server has it. Once [register] has been answered 201 for an
    email, and whatever requests and clock ticks come in between, a
    [register] with the very same email string, a name and a password is
    answered 400 "User already exists" when the database answers, and the
    collection then holds exactly one document with that email. *)
Theorem second_register_of_the_same_email_is_refused
  (req1 req2 : RegisterBody) (w : World) (between : list Event) :
  status (fst (register JWT_SECRET req1 w)) = 201 ->
  let w1 := run JWT_SECRET between (snd (register JWT_SECRET req1 w)) in
  r_email req2 = r_email req1 ->
  falsy (r_name req2) = false ->
  falsy (r_password req2) = false ->
  faulty w1 = false ->
  fst (register JWT_SECRET req2 w1) = json 400 (message "User already exists")
  /\ count_email (str (r_email req1))
       (users (snd (register JWT_SECRET req2 w1))) = 1%nat.
Proof.
  intros Hcreated w1 Hsame Hname Hpassword Hup.
  apply register_created in Hcreated as [Hemail Hone].
  apply (run_keeps_single _ between) in Hone. fold w1 in Hone.
  rewrite register_paths. cbv zeta.
  rewrite Hsame, Hemail, Hname, Hpassword, Hup. cbn [orb].
  destruct (find _ (users w1)) eqn:Hfind.
  - split; [reflexivity|exact Hone].
  - apply count_email_find in Hfind. rewrite Hfind in Hone. discriminate.
Qed.

(** ** Refused tokens *)

(** C4, as the server has it. When [jwt.verify] reports a token as expired,
    which it does for a well-formed, correctly signed token past its
    expiry, [verify] answers 403 "Invalid or expired token" and leaves the
    world alone; and that is the very answer it gives whenever [jwt.verify]
    reports any error, an invalid signature or a malformed token
    included. *)
Theorem expired_token_gets_the_common_refusal (h : JsString) (w : World) :
  falsy (bearer h) = false ->
  jwt_verify (str (bearer h)) JWT_SECRET (clock w) = inl Expired ->
  verify JWT_SECRET h w = (json 403 (message "Invalid or expired token"), w)
  /\ (forall (h' : JsString) (w' : World) (err : TokenError),
        falsy (bearer h') = false ->
        jwt_verify (str (bearer h')) JWT_SECRET (clock w') = inl err ->
        fst (verify JWT_SECRET h' w') = fst (verify JWT_SECRET h w)).
Proof.
  intros Htok Hexpired. split.
  - now rewrite verify_paths, Htok, Hexpired.
  - intros h' w' err Htok' Herr.
    now rewrite !verify_paths, Htok, Hexpired, Htok', Herr.
Qed.

End ServerFacts.

(** ** Altered tokens, on the reference jsonwebtoken *)

Lemma split_cons (sep : ascii) (s : string) :
  exists piece pieces, split sep s = piece :: pieces.
Proof.
  induction s as [|a s (piece & pieces & IH)]; cbn; [now eexists; eexists|].
  destruct (Ascii.eqb a sep); [now eexists; eexists|].
  rewrite IH. now eexists; eexists.
Qed.





Module TamperFacts.

Import Codec CodecFacts JwtRefFacts.

Section WithMac.

Variable mac : string -> string -> string.








End WithMac.


End TamperFacts.

(** ** The sample run *)

Module SampleFacts.

Import Sample.

(** Ada registers and her token verifies at once. *)
Lemma register_then_verify_sample :
  exists (tok : string) (w' : World) (claims : Claims),
    srv_register ada w0 =
      (json 201 (auth_body "User created successfully" tok 1 "Ada"
                   "ada@example.com"), w')
    /\ srv_verify (Bearer tok) (srv_step w' (Tick 0)) =
         (json 200 (JObj [("message", JStr "Token is valid");
                          ("user", claims_json claims)]),
          srv_step w' (Tick 0))
    /\ c_email claims = "ada@example.com".
Proof.
  apply (@register_then_verify Standin.bcryptjs Standin.jsonwebtoken secret
           (JwtRefFacts.reference_lawful Standin.mac) "server-secret" ada w0 0);
    solve [reflexivity | discriminate].
Defined.

(** Ada registers; the clock ticks and she logs in; a second registration
    with her email is refused and leaves one document. *)
Lemma second_register_sample :
  let between := [Tick 5000;
                  Call (PostLogin (mkLogin (Some "ada@example.com") (Some "s3cret!")))] in
  let w := srv_run between (snd (srv_register ada w0)) in
  let again := mkRegister (Some "ada@example.com") (Some "other") (Some "Eve") in
  fst (srv_register again w) = json 400 (message "User already exists")
  /\ count_email "ada@example.com" (users (snd (srv_register again w))) = 1%nat.
Proof.
  apply (@second_register_of_the_same_email_is_refused Standin.bcryptjs
           Standin.jsonwebtoken secret ada
           (mkRegister (Some "ada@example.com") (Some "other") (Some "Eve")) w0);
    reflexivity.
Defined.

(** An unknown email and Ada's email with a wrong password. *)
Lemma login_alike_sample :
  let unknown := mkLogin (Some "bob@example.com") (Some "s3cret!") in
  let wrong := mkLogin (Some "ada@example.com") (Some "wrong") in
  fst (srv_login unknown w1) = fst (srv_login wrong w1)
  /\ fst (srv_login unknown w1) = json 400 (message "Invalid credentials").
Proof.
  apply (@login_unknown_email_and_wrong_password_alike Standin.bcryptjs
           Standin.jsonwebtoken secret
           (mkLogin (Some "bob@example.com") (Some "s3cret!"))
           (mkLogin (Some "ada@example.com") (Some "wrong")) w1 w1
           (mkUser 1 "Ada" "ada@example.com" "10$7$73336372657421" 1000000));
    reflexivity.
Defined.

(** Ada's token, verified in the world her registration left. *)
Lemma verify_claims_sample :
  srv_verify (Bearer token) w1 =
    (json 200 (JObj [("message", JStr "Token is valid");
                     ("user", JObj [("userId", JOid 1);
                                    ("email", JStr "ada@example.com");
                                    ("iat", JNum 1000);
                                    ("exp", JNum 605800)])]), w1)
  /\ (forall w2 : World, clock w2 = clock w1 ->
        fst (srv_verify (Bearer token) w2) = fst (srv_verify (Bearer token) w1)).
Proof.
  apply (@verify_returns_the_embedded_claims Standin.jsonwebtoken secret (Bearer token) w1
           (mkClaims 1 "ada@example.com" 1000 605800));
    reflexivity.
Defined.

(** Ada's token eight days on. *)
Lemma expired_token_sample :
  srv_verify (Bearer token) w_late = (json 403 (message "Invalid or expired token"), w_late)
  /\ (forall (h' : JsString) (w' : World) (err : TokenError),
        falsy (bearer h') = false ->
        @jwt_verify Standin.jsonwebtoken (str (bearer h')) secret (clock w') = inl err ->
        fst (srv_verify h' w') = fst (srv_verify (Bearer token) w_late)).
Proof.
  apply (@expired_token_gets_the_common_refusal Standin.jsonwebtoken secret (Bearer token) w_late);
    reflexivity.
Defined.


(** Case variants of one email register side by side: the second
    registration is answered 201 and two documents share the normalised
    email. *)
Lemma case_variant_registers_again :
  normalize "Ada@Example.com" = normalize "ada@example.com"
  /\ status (fst (srv_register Ada w0)) = 201
  /\ status (fst (srv_register ada (snd (srv_register Ada w0)))) = 201
  /\ count_normalized "ada@example.com"
       (users (snd (srv_register ada (snd (srv_register Ada w0))))) = 2%nat.
Proof. vm_compute. repeat split. Qed.

(** An expired token and a badly signed one get one and the same answer:
    nothing in it tells the one error from the other. *)
Lemma expired_answer_names_no_kind :
  @jwt_verify Standin.jsonwebtoken token secret (clock w_late) = inl Expired
  /\ @jwt_verify Standin.jsonwebtoken token_altered secret (clock w_late) = inl InvalidSignature
  /\ fst (srv_verify (Bearer token) w_late) = json 403 (message "Invalid or expired token")
  /\ fst (srv_verify (Bearer token_altered) w_late) = fst (srv_verify (Bearer token) w_late)
  /\ ~ (exists kind_of : Response -> TokenError,
          kind_of (fst (srv_verify (Bearer token) w_late)) = Expired
          /\ kind_of (fst (srv_verify (Bearer token_altered) w_late)) = InvalidSignature).
Proof.
  repeat apply conj; try (vm_compute; reflexivity).
  intros (kind_of & Hexpired & Hsignature).
  vm_compute in Hexpired, Hsignature. congruence.
Qed.


(** Without [JWT_SECRET] the document is inserted before [jwt.sign]
    throws: the answer is 500 and the document stays. *)
Example register_without_secret :
  status (fst (srv_register_no_secret ada w0)) = 500
  /\ List.length (users (snd (srv_register_no_secret ada w0))) = 1%nat.
Proof. vm_compute. now split. Qed.

End SampleFacts.

(** * More of the server *)

(** ** The header the middleware reads *)

Lemma bearer_scheme (scheme rest : string) :
  occurs " " scheme = false ->
  bearer (Some (scheme ++ String " " rest)) = Some (hd EmptyString (split " " rest)).
Proof.
  intros Hscheme. unfold bearer.
  assert (Hsplit : nth_error (split " " (scheme ++ String " " rest)) 1 =
                   Some (hd EmptyString (split " " rest))).
  { rewrite split_append by assumption.
    destruct (split_cons " " rest) as (x & xs & ->). reflexivity. }
  destruct scheme; exact Hsplit.
Qed.

Lemma second_piece (s : string) :
  nth_error (split " " s) 1 =
    match cut " " s with
    | Some (_, rest) => Some (hd EmptyString (split " " rest))
    | None => None
    end.
Proof.
  induction s as [|a s IH]; [reflexivity|]. cbn.
  destruct (Ascii.eqb a " ").
  - destruct (split_cons " " s) as (x & xs & ->). reflexivity.
  - destruct (split_cons " " s) as (x & xs & Hs). rewrite Hs in *. cbn in *.
    rewrite IH. destruct (cut " " s) as [[before after]|]; reflexivity.
Qed.

Lemma falsy_bearer (h : JsString) : falsy (bearer h) = negb (presents_token h).
Proof.
  destruct h as [[|a s]|]; try reflexivity.
  unfold bearer, presents_token. rewrite second_piece.
  destruct (cut " " (String a s)) as [[before [|ch rest]]|]; try reflexivity.
  cbn. destruct (Ascii.eqb ch " "); [reflexivity|].
  destruct (split_cons " " rest) as (x & xs & ->). reflexivity.
Qed.

Section Middleware.

Context {bcrypt : Bcrypt} {jwt : Jwt}.

Variable JWT_SECRET : option string.

(** X1. The protected routes answer 401 "Access token required" exactly
    when the header is absent or has no first space followed by a
    character other than a space; they then leave the world untouched. *)
Theorem access_token_required (h : JsString) (w : World) :
  (fst (verify JWT_SECRET h w) = json 401 (message "Access token required")
   <-> presents_token h = false)
  /\ (fst (profile JWT_SECRET h w) = json 401 (message "Access token required")
      <-> presents_token h = false)
  /\ (presents_token h = false ->
      snd (verify JWT_SECRET h w) = w /\ snd (profile JWT_SECRET h w) = w).
Proof.
  rewrite verify_paths, profile_paths, falsy_bearer.
  destruct (presents_token h); cbn [negb].
  - repeat split; try discriminate.
    + destruct (jwt_verify _ _ _); discriminate.
    + destruct (jwt_verify _ _ _) as [err|claims]; [discriminate|]. cbv zeta.
      destruct (faulty w); [discriminate|].
      destruct (find _ _); discriminate.
  - repeat split; reflexivity.
Qed.

(** X2. The middleware looks at neither the scheme word nor anything past
    a second space: a header made of any word without space, a space, a
    token without space and, possibly, a space and more, is answered by
    both protected routes exactly as the header "Bearer " followed by that
    token. *)
Theorem scheme_and_trailer_are_ignored
  (scheme tok more : string) (w : World) :
  occurs " " scheme = false ->
  occurs " " tok = false ->
  verify JWT_SECRET (Some (scheme ++ " " ++ tok)) w = verify JWT_SECRET (Bearer tok) w
  /\ verify JWT_SECRET (Some (scheme ++ " " ++ tok ++ " " ++ more)) w =
       verify JWT_SECRET (Bearer tok) w
  /\ profile JWT_SECRET (Some (scheme ++ " " ++ tok)) w = profile JWT_SECRET (Bearer tok) w
  /\ profile JWT_SECRET (Some (scheme ++ " " ++ tok ++ " " ++ more)) w =
       profile JWT_SECRET (Bearer tok) w.
Proof.
  intros Hscheme Htok.
  assert (Hplain : bearer (Some (scheme ++ " " ++ tok)) = bearer (Bearer tok)).
  { rewrite (bearer_Bearer _ Htok).
    change (" " ++ tok) with (String " " tok).
    rewrite bearer_scheme by assumption.
    now rewrite (split_without _ _ Htok). }
  assert (Hmore : bearer (Some (scheme ++ " " ++ tok ++ " " ++ more)) =
                  bearer (Bearer tok)).
  { rewrite (bearer_Bearer _ Htok).
    change (" " ++ tok ++ " " ++ more) with (String " " (tok ++ String " " more)).
    rewrite bearer_scheme by assumption.
    now rewrite split_append by assumption. }
  rewrite !verify_paths, !profile_paths, Hplain, Hmore. now repeat split.
Qed.

End Middleware.

(** ** What requests do to the world *)

Section Collection.

Context {bcrypt : Bcrypt} {jwt : Jwt}.

Variable JWT_SECRET : option string.

(** A request leaves the clock alone, and either leaves the collection and
    the id generator alone or, being a registration, appends one document
    with the next id and an email that was not there. *)
Lemma handle_frame (r : Request) (w : World) :
  clock (snd (handle JWT_SECRET r w)) = clock w
  /\ ((users (snd (handle JWT_SECRET r w)) = users w
       /\ next_oid (snd (handle JWT_SECRET r w)) = next_oid w)
      \/ exists d,
           users (snd (handle JWT_SECRET r w)) = (users w ++ [d])%list
           /\ u_id d = next_oid w
           /\ next_oid (snd (handle JWT_SECRET r w)) = next_oid w + 1
           /\ count_email (u_email d) (users w) = 0%nat
           /\ exists req, r = PostRegister req).
Proof.
  destruct r as [req|req|h|h]; cbn [handle].
  - rewrite register_paths. cbv zeta.
    destruct (_ || _); [now split; [|left]|].
    destruct (faulty w); [now split; [|left]|].
    destruct (find _ _) eqn:Hfresh; [now split; [|left]|].
    destruct (faulty _); [now split; [|left]|].
    apply count_email_find in Hfresh.
    destruct (jwt_sign _ _ _ _); (split; [reflexivity|]); right;
      eexists; (repeat split; [reflexivity .. | exact Hfresh | now exists req]).
  - rewrite login_paths. cbv zeta.
    destruct (_ || _); [now split; [|left]|].
    destruct (faulty w); [now split; [|left]|].
    destruct (find _ _); [|now split; [|left]].
    destruct (bcrypt_compare _ _); [|now split; [|left]].
    destruct (jwt_sign _ _ _ _); now split; [|left].
  - rewrite profile_paths.
    destruct (falsy _); [now split; [|left]|].
    destruct (jwt_verify _ _ _); [now split; [|left]|]. cbv zeta.
    destruct (faulty w); [now split; [|left]|].
    destruct (find _ _); now split; [|left].
  - rewrite verify_paths.
    destruct (falsy _); [now split; [|left]|].
    destruct (jwt_verify _ _ _); now split; [|left].
Qed.

Lemma count_email_absent (email : string) (us : list UserDoc) :
  count_email email us = 0%nat -> ~ In email (map u_email us).
Proof.
  unfold count_email. induction us as [|u us IH]; cbn; [tauto|].
  destruct (String.eqb (u_email u) email) eqn:Heq; cbn; [discriminate|].
  intros Hzero [Hhead | Htail]; [|now apply IH].
  subst email. now rewrite String.eqb_refl in Heq.
Qed.

Lemma NoDup_snoc {A} (l : list A) (a : A) :
  NoDup l -> ~ In a l -> NoDup (l ++ [a]).
Proof.
  intros Hl Ha. apply NoDup_app; [assumption | repeat constructor; intros [] |].
  intros x Hx [<- | []]. contradiction.
Qed.

(** X3. If no two documents of the collection have the same email, then
    after any sequence of requests and clock ticks none do. *)
Theorem emails_stay_distinct (evs : list Event) (w : World) :
  NoDup (map u_email (users w)) ->
  NoDup (map u_email (users (run JWT_SECRET evs w))).
Proof.
  revert w. induction evs as [|ev evs IH]; intros w Hw; [exact Hw|].
  cbn [run fold_left]. apply IH. destruct ev as [r|ms]; cbn [step]; [|exact Hw].
  destruct (handle_frame r w) as [_ [[-> _] | (d & -> & _ & _ & Hfresh & _)]];
    [exact Hw|].
  rewrite map_app. cbn [map]. apply NoDup_snoc; [exact Hw|].
  now apply count_email_absent.
Qed.

(** X5. No request removes or changes a stored document: after any
    sequence of requests and clock ticks the collection is the old one
    followed by new documents, at most one for each registration
    requested. *)
Theorem collection_only_grows (evs : list Event) (w : World) :
  exists added,
    users (run JWT_SECRET evs w) = (users w ++ added)%list
    /\ (List.length added <= registrations evs)%nat.
Proof.
  revert w. induction evs as [|ev evs IH]; intros w.
  - exists []. cbn. now rewrite app_nil_r.
  - cbn [run fold_left]. destruct (IH (step JWT_SECRET w ev)) as (added & Hrun & Hlen).
    fold (run JWT_SECRET evs (step JWT_SECRET w ev)). rewrite Hrun.
    destruct ev as [r|ms]; cbn [step].
    + destruct (handle_frame r w) as [_ [[-> _] | (d & -> & _ & _ & _ & req & ->)]].
      * exists added. split; [reflexivity|].
        unfold registrations in *. cbn [filter]. destruct r; cbn [List.length]; lia.
      * exists (d :: added). split; [now rewrite <- app_assoc|].
        unfold registrations in *. cbn. lia.
    + exists added. split; [reflexivity|]. exact Hlen.
Qed.

End Collection.

(** ** The answers of the server *)

Section Answers.

Context {bcrypt : Bcrypt} {jwt : Jwt}.

Variable JWT_SECRET : option string.

(** An answer that is not a success is a bare message out of the
    server's eight. *)
Lemma failure_body (r : Request) (w : World) :
  ok (fst (handle JWT_SECRET r w)) = false ->
  exists m, In m error_messages
            /\ body (fst (handle JWT_SECRET r w)) = message m.
Proof.
  assert (Hmsg : forall code m,
             In m error_messages ->
             ok (json code (message m)) = false ->
             exists m', In m' error_messages
                        /\ body (json code (message m)) = message m').
  { intros code m Hm _. now exists m. }
  destruct r as [req|req|h|h]; cbn [handle].
  - rewrite register_paths. cbv zeta.
    destruct (_ || _); [apply Hmsg; cbn; tauto|].
    destruct (faulty w); [apply Hmsg; cbn; tauto|].
    destruct (find _ _); [apply Hmsg; cbn; tauto|].
    destruct (faulty _); [apply Hmsg; cbn; tauto|].
    destruct (jwt_sign _ _ _ _); [discriminate | apply Hmsg; cbn; tauto].
  - rewrite login_paths. cbv zeta.
    destruct (_ || _); [apply Hmsg; cbn; tauto|].
    destruct (faulty w); [apply Hmsg; cbn; tauto|].
    destruct (find _ _); [|apply Hmsg; cbn; tauto].
    destruct (bcrypt_compare _ _); [|apply Hmsg; cbn; tauto].
    destruct (jwt_sign _ _ _ _); [discriminate | apply Hmsg; cbn; tauto].
  - rewrite profile_paths.
    destruct (falsy _); [apply Hmsg; cbn; tauto|].
    destruct (jwt_verify _ _ _); [apply Hmsg; cbn; tauto|]. cbv zeta.
    destruct (faulty w); [apply Hmsg; cbn; tauto|].
    destruct (find _ _); [discriminate | apply Hmsg; cbn; tauto].
  - rewrite verify_paths.
    destruct (falsy _); [apply Hmsg; cbn; tauto|].
    destruct (jwt_verify _ _ _); [apply Hmsg; cbn; tauto | discriminate].
Qed.

(** X6. Whatever the world, what the four route handlers answer to a
    request whose body fields are absent or strings has status 200, 201,
    400, 401, 403, 404 or 500, and such an answer outside 200..299 has for
    body exactly one message out of the eight fixed ones: the handlers put
    nothing of the exception they caught or of the database into it. *)
Theorem error_answers_are_fixed_messages (r : Request) (w : World) :
  In (status (fst (handle JWT_SECRET r w))) [200; 201; 400; 401; 403; 404; 500]
  /\ (ok (fst (handle JWT_SECRET r w)) = false ->
      exists m, In m error_messages
                /\ body (fst (handle JWT_SECRET r w)) = JObj [("message", JStr m)]).
Proof.
  split; [|apply failure_body].
  destruct r as [req|req|h|h]; cbn [handle].
  - rewrite register_paths. cbv zeta.
    destruct (_ || _); [cbn; tauto|].
    destruct (faulty w); [cbn; tauto|].
    destruct (find _ _); [cbn; tauto|].
    destruct (faulty _); [cbn; tauto|].
    destruct (jwt_sign _ _ _ _); cbn; tauto.
  - rewrite login_paths. cbv zeta.
    destruct (_ || _); [cbn; tauto|].
    destruct (faulty w); [cbn; tauto|].
    destruct (find _ _); [|cbn; tauto].
    destruct (bcrypt_compare _ _); [|cbn; tauto].
    destruct (jwt_sign _ _ _ _); cbn; tauto.
  - rewrite profile_paths.
    destruct (falsy _); [cbn; tauto|].
    destruct (jwt_verify _ _ _); [cbn; tauto|]. cbv zeta.
    destruct (faulty w); [cbn; tauto|].
    destruct (find _ _); cbn; tauto.
  - rewrite verify_paths.
    destruct (falsy _); [cbn; tauto|].
    destruct (jwt_verify _ _ _); cbn; tauto.
Qed.

(** X7. When the lookup in the database throws, the answer is 500
    "Server error" and the collection is as it was: in [register] and in
    [login] once the fields are there, and in [profile] behind a good
    token. *)
Theorem database_failure_is_a_server_error :
  (forall (req : RegisterBody) (w : World),
     falsy (r_email req) = false -> falsy (r_password req) = false ->
     falsy (r_name req) = false ->
     faulty w = true ->
     fst (register JWT_SECRET req w) = json 500 (message "Server error")
     /\ users (snd (register JWT_SECRET req w)) = users w)
  /\ (forall (req : LoginBody) (w : World),
        falsy (l_email req) = false -> falsy (l_password req) = false ->
        faulty w = true ->
        fst (login JWT_SECRET req w) = json 500 (message "Server error")
        /\ users (snd (login JWT_SECRET req w)) = users w)
  /\ (forall (h : JsString) (w : World) (claims : Claims),
        falsy (bearer h) = false ->
        jwt_verify (str (bearer h)) JWT_SECRET (clock w) = inr claims ->
        faulty w = true ->
        fst (profile JWT_SECRET h w) = json 500 (message "Server error")
        /\ users (snd (profile JWT_SECRET h w)) = users w).
Proof.
  repeat apply conj.
  - intros req w Hemail Hpassword Hname Hfault.
    rewrite register_paths. cbv zeta.
    rewrite Hemail, Hpassword, Hname, Hfault. now split.
  - intros req w Hemail Hpassword Hfault.
    rewrite login_paths. cbv zeta. rewrite Hemail, Hpassword, Hfault. now split.
  - intros h w claims Htok Hok Hfault.
    rewrite profile_paths, Htok, Hok. cbv zeta. rewrite Hfault. now split.
Qed.

(** X8. The database calls of a request, latest first: [verify] makes
    none; [login] makes none or one lookup by the email of the request;
    [profile] makes none or one lookup by id; [register] makes none, or a
    lookup by the email of the request, or that lookup followed by an
    insert for that email. No other call is ever made, and each call made
    uses up one entry of the fault schedule. *)
Theorem database_calls_of_a_request (r : Request) (w : World) :
  exists calls,
    oplog (snd (handle JWT_SECRET r w)) = (calls ++ oplog w)%list
    /\ faults (snd (handle JWT_SECRET r w)) = skipn (List.length calls) (faults w)
    /\ match r with
       | GetVerify _ => calls = []
       | PostLogin req =>
           calls = [] \/ calls = [FindByEmail (str (l_email req))]
       | GetProfile _ => calls = [] \/ exists id, calls = [FindById id]
       | PostRegister req =>
           calls = []
           \/ calls = [FindByEmail (str (r_email req))]
           \/ calls = [InsertOne (str (r_email req)); FindByEmail (str (r_email req))]
       end.
Proof.
  assert (Hone : forall fs : list bool, tl fs = skipn 1 fs) by now intros [|f fs].
  assert (Htwo : forall fs : list bool, tl (tl fs) = skipn 2 fs)
    by now intros [|f [|g fs]].
  destruct r as [req|req|h|h]; cbn [handle].
  - rewrite register_paths. cbv zeta.
    destruct (_ || _).
    { exists []. split; [reflexivity | split; [reflexivity | now left]]. }
    destruct (faulty w).
    { eexists [_]. split; [reflexivity | split; [apply Hone | now right; left]]. }
    destruct (find _ _).
    { eexists [_]. split; [reflexivity | split; [apply Hone | now right; left]]. }
    destruct (faulty _).
    { eexists [_; _]. split; [reflexivity | split; [apply Htwo | now right; right]]. }
    destruct (jwt_sign _ _ _ _);
      eexists [_; _]; (split; [reflexivity | split; [apply Htwo | now right; right]]).
  - rewrite login_paths. cbv zeta.
    destruct (_ || _).
    { exists []. split; [reflexivity | split; [reflexivity | now left]]. }
    destruct (faulty w).
    { eexists [_]. split; [reflexivity | split; [apply Hone | now right]]. }
    destruct (find _ _).
    2:{ eexists [_]. split; [reflexivity | split; [apply Hone | now right]]. }
    destruct (bcrypt_compare _ _).
    2:{ eexists [_]. split; [reflexivity | split; [apply Hone | now right]]. }
    destruct (jwt_sign _ _ _ _);
      eexists [_]; (split; [reflexivity | split; [apply Hone | now right]]).
  - rewrite profile_paths.
    destruct (falsy _).
    { exists []. split; [reflexivity | split; [reflexivity | now left]]. }
    destruct (jwt_verify _ _ _) as [err|claims].
    { exists []. split; [reflexivity | split; [reflexivity | now left]]. }
    cbv zeta.
    destruct (faulty w).
    { eexists [_]. split; [reflexivity | split; [apply Hone | right; now eexists]]. }
    destruct (find _ _);
      eexists [_]; (split; [reflexivity | split; [apply Hone | right; now eexists]]).
  - rewrite verify_paths.
    destruct (falsy _); [exists []; now repeat split|].
    destruct (jwt_verify _ _ _); exists []; now repeat split.
Qed.

End Answers.

(** ** Registration, then the other routes *)

Lemma find_after {A} (f : A -> bool) (l : list A) (a : A) :
  find f l = None -> f a = true -> find f (l ++ [a]) = Some a.
Proof.
  induction l as [|x l IH]; cbn; intros Hnone Ha; [now rewrite Ha|].
  destruct (f x); [discriminate | now apply IH].
Qed.

Lemma db_ok_three (w : World) :
  db_ok 3 w = true ->
  faulty w = false /\ hd false (tl (faults w)) = false
  /\ hd false (tl (tl (faults w))) = false.
Proof.
  unfold db_ok, faulty.
  destruct (faults w) as [|[] [|[] [|[] fs]]]; cbn; auto; discriminate.
Qed.

Lemma registered_users (name email hashed : string) (w : World) :
  users (registered name email hashed w) =
    (users w ++ [mkUser (next_oid w) name email hashed (clock w)])%list.
Proof. reflexivity. Qed.

Lemma registered_clock (name email hashed : string) (w : World) :
  clock (registered name email hashed w) = clock w.
Proof. reflexivity. Qed.

Lemma registered_faults (name email hashed : string) (w : World) :
  faults (registered name email hashed w) = tl (tl (faults w)).
Proof. reflexivity. Qed.

Lemma week_ahead (now : N) : now / 1000 < now / 1000 + expiresIn_7d.
Proof. unfold expiresIn_7d. lia. Qed.

Section AfterRegistration.

Context {bcrypt : Bcrypt} {jwt : Jwt}.

Variable JWT_SECRET : option string.

(** A registration goes through when the fields are there, the email is
    new, the database answers twice and the token gets signed. *)
Lemma register_goes_through (req : RegisterBody) (w : World) (token : string) :
  falsy (r_name req) = false ->
  falsy (r_email req) = false ->
  falsy (r_password req) = false ->
  find (fun u => String.eqb (u_email u) (str (r_email req))) (users w) = None ->
  faulty w = false -> hd false (tl (faults w)) = false ->
  jwt_sign (mkPayload (next_oid w) (str (r_email req))) JWT_SECRET expiresIn_7d
    (clock w) = Some token ->
  register JWT_SECRET req w =
    (json 201 (auth_body "User created successfully" token (next_oid w)
                 (str (r_name req)) (str (r_email req))),
     registered (str (r_name req)) (str (r_email req))
       (bcrypt_hash (str (r_password req)) 10 (entropy w)) w).
Proof.
  intros Hname Hemail Hpassword Hfresh Hup1 Hup2 Hsign.
  rewrite register_paths. cbv zeta.
  rewrite Hname, Hemail, Hpassword, Hup1, Hfresh. cbn [orb].
  unfold faulty at 1. cbn [faults set_entropy called set_faults set_oplog].
  rewrite Hup2, Hsign. reflexivity.
Qed.

(** The header built from a signed token carries it to [jwt.verify]. *)
Lemma signed_token_presented {lawful : JwtLawful jwt} p s e now token :
  jwt_sign p s e now = Some token ->
  falsy (bearer (Bearer token)) = false /\ str (bearer (Bearer token)) = token.
Proof.
  intros Hsign. destruct (sign_transport _ _ _ _ _ Hsign) as [Hnonempty Hnospace].
  rewrite (bearer_Bearer _ Hnospace). destruct token; [congruence | now split].
Qed.

(** X9. Register, then profile: with a secret configured, a lawful
    jsonwebtoken, an email not yet in the collection, ids below the
    driver's next one and a database that answers, [register] is answered
    201 with a token, and [profile] with that token, before the seven days
    are over, is answered 200 with the stored document less its password:
    the new id, the name and the email as registered, and the clock of the
    registration as creation date. *)
Theorem register_then_profile {lawful : JwtLawful jwt}
  (key : string) (req : RegisterBody) (w : World) (later : N) :
  JWT_SECRET = Some key -> key <> EmptyString ->
  falsy (r_name req) = false ->
  falsy (r_email req) = false ->
  falsy (r_password req) = false ->
  find (fun u => String.eqb (u_email u) (str (r_email req))) (users w) = None ->
  Forall (fun u => u_id u < next_oid w) (users w) ->
  db_ok 3 w = true ->
  (clock w + later) / 1000 < clock w / 1000 + expiresIn_7d ->
  exists (token : string) (w' : World),
    register JWT_SECRET req w =
      (json 201 (auth_body "User created successfully" token (next_oid w)
                   (str (r_name req)) (str (r_email req))), w')
    /\ fst (profile JWT_SECRET (Bearer token) (step JWT_SECRET w' (Tick later))) =
         json 200 (JObj [("user",
           JObj [("_id", JOid (next_oid w));
                 ("name", JStr (str (r_name req)));
                 ("email", JStr (str (r_email req)));
                 ("createdAt", JDate (clock w))])]).
Proof.
  intros Hsecret Hkey Hname Hemail Hpassword Hfresh Hbelow Hdb Hlater.
  apply db_ok_three in Hdb as (Hup1 & Hup2 & Hup3).
  set (payload := mkPayload (next_oid w) (str (r_email req))).
  destruct (jwt_sign payload JWT_SECRET expiresIn_7d (clock w)) as [token|] eqn:Hsign.
  2:{ rewrite Hsecret in Hsign. now apply sign_succeeds in Hsign. }
  exists token. eexists. split.
  - now apply register_goes_through.
  - destruct (signed_token_presented _ _ _ _ _ Hsign) as [Hpresented Hstr].
    rewrite profile_paths, Hpresented, Hstr.
    cbn [step clock set_clock]. rewrite registered_clock.
    rewrite (verify_sign _ _ _ _ _ _ Hsign Hlater). cbv zeta.
    unfold faulty. cbn [faults users set_clock].
    rewrite registered_faults, Hup3, registered_users.
    cbn [c_userId issued_claims p_userId payload].
    rewrite (find_after _ _ (mkUser (next_oid w) (str (r_name req))
               (str (r_email req))
               (bcrypt_hash (str (r_password req)) 10 (entropy w)) (clock w))).
    + reflexivity.
    + destruct (find (fun u => N.eqb (u_id u) (next_oid w)) (users w))
        as [u|] eqn:Hfind; [|reflexivity].
      apply find_some in Hfind as [Hin Hid]. apply N.eqb_eq in Hid.
      rewrite Forall_forall in Hbelow. specialize (Hbelow u Hin). cbn in Hid. lia.
    + cbn. apply N.eqb_refl.
Qed.

(** X10. Register, then login, then verify: with a secret configured,
    lawful bcryptjs and jsonwebtoken, a new email and a database that
    answers, [register] is answered 201; a [login] with the same email and
    password, at once or any time later, is then answered 200 with the
    registered id, name and email and a token; and [verify] with that token
    is answered 200 with claims holding that id and that email. *)
Theorem register_then_login_then_verify {lawful : JwtLawful jwt}
  (key : string) (req : RegisterBody) (w : World) (later : N) :
  BcryptLawful bcrypt ->
  JWT_SECRET = Some key -> key <> EmptyString ->
  falsy (r_name req) = false ->
  falsy (r_email req) = false ->
  falsy (r_password req) = false ->
  find (fun u => String.eqb (u_email u) (str (r_email req))) (users w) = None ->
  db_ok 3 w = true ->
  exists (token token' : string) (w1 w2 : World) (claims : Claims),
    register JWT_SECRET req w =
      (json 201 (auth_body "User created successfully" token (next_oid w)
                   (str (r_name req)) (str (r_email req))), w1)
    /\ login JWT_SECRET (mkLogin (r_email req) (r_password req))
         (step JWT_SECRET w1 (Tick later)) =
         (json 200 (auth_body "Login successful" token' (next_oid w)
                      (str (r_name req)) (str (r_email req))), w2)
    /\ verify JWT_SECRET (Bearer token') w2 =
         (json 200 (JObj [("message", JStr "Token is valid");
                          ("user", claims_json claims)]), w2)
    /\ c_userId claims = next_oid w
    /\ c_email claims = str (r_email req).
Proof.
  intros Hbcrypt Hsecret Hkey Hname Hemail Hpassword Hfresh Hdb.
  apply db_ok_three in Hdb as (Hup1 & Hup2 & Hup3).
  set (payload := mkPayload (next_oid w) (str (r_email req))).
  destruct (jwt_sign payload JWT_SECRET expiresIn_7d (clock w)) as [token|] eqn:Hsign.
  2:{ rewrite Hsecret in Hsign. now apply sign_succeeds in Hsign. }
  destruct (jwt_sign payload JWT_SECRET expiresIn_7d (clock w + later))
    as [token'|] eqn:Hsign'.
  2:{ rewrite Hsecret in Hsign'. now apply sign_succeeds in Hsign'. }
  exists token, token'. eexists. eexists.
  exists (issued_claims payload expiresIn_7d (clock w + later)).
  split; [now apply register_goes_through|]. split; [|split; [|now split]].
  - rewrite login_paths. cbv zeta. cbn [l_email l_password].
    rewrite Hemail, Hpassword. cbn [orb].
    unfold faulty. cbn [step clock users faults set_clock].
    rewrite registered_faults, Hup3, registered_users, registered_clock.
    rewrite (find_after _ _ (mkUser (next_oid w) (str (r_name req))
               (str (r_email req))
               (bcrypt_hash (str (r_password req)) 10 (entropy w)) (clock w)) Hfresh)
      by (cbn; apply String.eqb_refl).
    cbn [u_password u_id u_email u_name]. rewrite Hbcrypt.
    fold payload. rewrite Hsign'. reflexivity.
  - destruct (signed_token_presented _ _ _ _ _ Hsign') as [Hpresented Hstr].
    rewrite verify_paths, Hpresented, Hstr.
    cbn [clock called set_faults set_oplog step set_clock].
    now rewrite (verify_sign _ _ _ _ _ _ Hsign' (week_ahead _)).
Qed.

(** X11. The life of a login token: when [login] finds the document and
    the password compares equal, it answers 200 with a token; [verify]
    with that token answers 200 with the document's id and email as long
    as the clock, in whole seconds, is less than 604800 seconds past the
    login, and 403 "Invalid or expired token" from then on. *)
Theorem login_token_lasts_seven_days {lawful : JwtLawful jwt}
  (key : string) (req : LoginBody) (w : World) (user : UserDoc) :
  JwtExpires jwt ->
  JWT_SECRET = Some key -> key <> EmptyString ->
  falsy (l_email req) = false -> falsy (l_password req) = false ->
  faulty w = false ->
  find (fun u => String.eqb (u_email u) (str (l_email req))) (users w) = Some user ->
  bcrypt_compare (str (l_password req)) (u_password user) = true ->
  exists (token : string) (w' : World),
    login JWT_SECRET req w =
      (json 200 (auth_body "Login successful" token (u_id user) (u_name user)
                   (u_email user)), w')
    /\ forall later : N,
         ((clock w + later) / 1000 < clock w / 1000 + 604800 ->
          fst (verify JWT_SECRET (Bearer token) (step JWT_SECRET w' (Tick later))) =
            json 200 (JObj [("message", JStr "Token is valid");
                            ("user", JObj [("userId", JOid (u_id user));
                                           ("email", JStr (u_email user));
                                           ("iat", JNum (clock w / 1000));
                                           ("exp", JNum (clock w / 1000 + 604800))])]))
         /\ (clock w / 1000 + 604800 <= (clock w + later) / 1000 ->
             fst (verify JWT_SECRET (Bearer token) (step JWT_SECRET w' (Tick later))) =
               json 403 (message "Invalid or expired token")).
Proof.
  intros Hexpires Hsecret Hkey Hemail Hpassword Hup Hfound Hcompare.
  set (payload := mkPayload (u_id user) (u_email user)).
  destruct (jwt_sign payload JWT_SECRET expiresIn_7d (clock w)) as [token|] eqn:Hsign.
  2:{ rewrite Hsecret in Hsign. now apply sign_succeeds in Hsign. }
  exists token. eexists. split.
  - rewrite login_paths. cbv zeta.
    rewrite Hemail, Hpassword, Hup, Hfound, Hcompare. cbn [orb].
    fold payload. rewrite Hsign. reflexivity.
  - intros later.
    destruct (signed_token_presented _ _ _ _ _ Hsign) as [Hpresented Hstr].
    rewrite verify_paths, Hpresented, Hstr.
    cbn [step clock set_clock called set_faults set_oplog].
    change 604800 with expiresIn_7d. split; intros Hlater.
    + now rewrite (verify_sign _ _ _ _ _ _ Hsign Hlater).
    + destruct (Hexpires _ _ _ _ _ _ Hsign Hlater) as [err ->]. reflexivity.
Qed.

End AfterRegistration.

(** * The client against the server *)

Lemma message_of_failure (m fallback : string) :
  In m error_messages ->
  or_else (field "message" (message m)) (JStr fallback) = JStr m.
Proof.
  unfold error_messages. cbn [In].
  intros [<- | [<- | [<- | [<- | [<- | [<- | [<- | [<- | []]]]]]]]]; reflexivity.
Qed.

Lemma falsy_string (s : string) : s <> EmptyString -> falsy (Some s) = false.
Proof. destruct s; [congruence | reflexivity]. Qed.

Section ClientFacts.

Context {bcrypt : Bcrypt} {jwt : Jwt}.

Variable JWT_SECRET : option string.

Variable String_other : option JValue -> string.

(** X12. When the server refuses a login or a registration, that is,
    answers it outside 200..299, the client ends with the server's own
    message as its error (never the fallback text), not loading, and with
    its user and its stored token as they were. *)
Theorem refusal_shows_the_server_message
  (name email password : string) (c : Client) (w : World) :
  (ok (fst (login JWT_SECRET (mkLogin (Some email) (Some password)) w)) = false ->
   exists m,
     body (fst (login JWT_SECRET (mkLogin (Some email) (Some password)) w)) =
       message m
     /\ AuthContext.login JWT_SECRET String_other Delivered email password c w =
          (mkClient (cl_user c) false (Some (JStr m)) (cl_token c),
           snd (login JWT_SECRET (mkLogin (Some email) (Some password)) w)))
  /\
  (ok (fst (register JWT_SECRET
              (mkRegister (Some email) (Some password) (Some name)) w)) = false ->
   exists m,
     body (fst (register JWT_SECRET
                  (mkRegister (Some email) (Some password) (Some name)) w)) =
       message m
     /\ AuthContext.register JWT_SECRET String_other Delivered name email password c w =
          (mkClient (cl_user c) false (Some (JStr m)) (cl_token c),
           snd (register JWT_SECRET
                  (mkRegister (Some email) (Some password) (Some name)) w))).
Proof.
  split; intros Hrefused.
  - destruct (failure_body JWT_SECRET
                (PostLogin (mkLogin (Some email) (Some password))) w Hrefused)
      as (m & Hm & Hbody).
    exists m. split; [exact Hbody|].
    unfold AuthContext.login, AuthContext.fetch. cbn [handle] in *.
    destruct (login JWT_SECRET _ w) as [resp w'] eqn:Hanswer. cbn [fst snd] in *.
    rewrite Hrefused, Hbody, (message_of_failure _ _ Hm). reflexivity.
  - destruct (failure_body JWT_SECRET
                (PostRegister (mkRegister (Some email) (Some password) (Some name)))
                w Hrefused)
      as (m & Hm & Hbody).
    exists m. split; [exact Hbody|].
    unfold AuthContext.register, AuthContext.fetch. cbn [handle] in *.
    destruct (register JWT_SECRET _ w) as [resp w'] eqn:Hanswer. cbn [fst snd] in *.
    rewrite Hrefused, Hbody, (message_of_failure _ _ Hm). reflexivity.
Qed.

(** X13. The effect of the first render. With no token stored, or an
    empty one, it asks the server nothing and only stops loading. With a
    token stored it never changes the server's world, and: if the request
    is delivered and [jwt.verify] accepts the token the server reads out of
    the header, the user becomes the id and the email of the claims under
    the name "User" and the token stays stored; in every other case (a lost
    request or answer, no token read out of the header, a token
    [jwt.verify] refuses) the stored token is removed and the user is left
    as it was. Loading stops in all cases. *)
Theorem first_render_restores_or_forgets
  (net : Net) (c : Client) (w : World) :
  (falsy (cl_token c) = true ->
   AuthContext.useEffect JWT_SECRET net c w = (setLoading false c, w))
  /\ (falsy (cl_token c) = false ->
      snd (AuthContext.useEffect JWT_SECRET net c w) = w
      /\ (forall claims,
            net = Delivered ->
            presents_token (Bearer (str (cl_token c))) = true ->
            jwt_verify (str (bearer (Bearer (str (cl_token c))))) JWT_SECRET
              (clock w) = inr claims ->
            fst (AuthContext.useEffect JWT_SECRET net c w) =
              mkClient (Some (JObj [("id", JOid (c_userId claims));
                                    ("name", JStr "User");
                                    ("email", JStr (c_email claims))]))
                false (cl_error c) (cl_token c))
      /\ (net <> Delivered
          \/ presents_token (Bearer (str (cl_token c))) = false
          \/ (exists err,
                jwt_verify (str (bearer (Bearer (str (cl_token c))))) JWT_SECRET
                  (clock w) = inl err) ->
          fst (AuthContext.useEffect JWT_SECRET net c w) =
            mkClient (cl_user c) false (cl_error c) None)).
Proof.
  unfold AuthContext.useEffect. split; intros Htoken; rewrite Htoken; [reflexivity|].
  unfold AuthContext.verifyToken, AuthContext.fetch. cbn [handle].
  rewrite verify_paths, falsy_bearer.
  split; [|split].
  - destruct net; try reflexivity;
      (destruct (presents_token _); cbn [negb]; [|reflexivity]);
      destruct (jwt_verify _ _ _); reflexivity.
  - intros claims -> Hpresented Hverdict.
    rewrite Hpresented, Hverdict. cbn [negb].
    destruct c as [u l e t]. reflexivity.
  - intros [Hnet | [Hnone | [err Hverdict]]].
    + destruct net; [congruence | reflexivity | ].
      destruct (presents_token _); cbn [negb]; [|reflexivity].
      destruct (jwt_verify _ _ _); reflexivity.
    + rewrite Hnone. cbn [negb]. destruct net; reflexivity.
    + rewrite Hverdict. destruct net; try reflexivity.
      destruct (presents_token _); reflexivity.
Qed.

End ClientFacts.

Section ClientSessions.

Context {bcrypt : Bcrypt} {jwt : Jwt} {lawful : JwtLawful jwt}.

Variable JWT_SECRET : option string.

Variable String_other : option JValue -> string.

(** X14. A registration through the client, and the next page load. With
    a secret configured, a lawful jsonwebtoken, three non-empty fields, a
    new email and a database that answers, [register] stores the server's
    token and sets the user to the id, name and email the server answered
    with, with no error, and the dashboard is shown. On the next first
    render, before the seven days are over, the session comes back from the
    stored token with the same id and email but the name "User": the name
    is not in the token; the dashboard is shown again. *)
Theorem client_registration_and_reload
  (key name email password : string) (c : Client) (w : World) (later : N)
  (isLogin : bool) :
  JWT_SECRET = Some key -> key <> EmptyString ->
  name <> EmptyString -> email <> EmptyString -> password <> EmptyString ->
  find (fun u => String.eqb (u_email u) email) (users w) = None ->
  db_ok 2 w = true ->
  (clock w + later) / 1000 < clock w / 1000 + expiresIn_7d ->
  exists (token : string) (w' : World),
    AuthContext.register JWT_SECRET String_other Delivered name email password c w =
      (mkClient (Some (JObj [("id", JOid (next_oid w)); ("name", JStr name);
                             ("email", JStr email)]))
         false None (Some token), w')
    /\ AuthContext.useEffect JWT_SECRET Delivered (first_render (Some token))
         (step JWT_SECRET w' (Tick later)) =
         (mkClient (Some (JObj [("id", JOid (next_oid w)); ("name", JStr "User");
                                ("email", JStr email)]))
            false None (Some token), step JWT_SECRET w' (Tick later))
    /\ AuthContainer isLogin
         (fst (AuthContext.register JWT_SECRET String_other Delivered name email
                 password c w)) = ShowDashboard
    /\ AuthContainer isLogin
         (fst (AuthContext.useEffect JWT_SECRET Delivered (first_render (Some token))
                 (step JWT_SECRET w' (Tick later)))) = ShowDashboard.
Proof.
  intros Hsecret Hkey Hname Hemail Hpassword Hfresh Hdb Hlater.
  apply db_ok_two in Hdb as [Hup1 Hup2].
  set (req := mkRegister (Some email) (Some password) (Some name)).
  set (payload := mkPayload (next_oid w) email).
  destruct (jwt_sign payload JWT_SECRET expiresIn_7d (clock w)) as [token|] eqn:Hsign.
  2:{ rewrite Hsecret in Hsign. now apply sign_succeeds in Hsign. }
  pose proof (register_goes_through JWT_SECRET req w token
                (falsy_string _ Hname) (falsy_string _ Hemail)
                (falsy_string _ Hpassword) Hfresh Hup1 Hup2 Hsign) as Hregister.
  cbn [req r_name r_email r_password str] in Hregister.
  assert (Hclient :
    AuthContext.register JWT_SECRET String_other Delivered name email password c w =
      (mkClient (Some (JObj [("id", JOid (next_oid w)); ("name", JStr name);
                             ("email", JStr email)]))
         false None (Some token),
       registered name email (bcrypt_hash password 10 (entropy w)) w)).
  { unfold AuthContext.register, AuthContext.fetch. cbn [handle].
    fold req. rewrite Hregister. reflexivity. }
  assert (Hreload :
    AuthContext.useEffect JWT_SECRET Delivered (first_render (Some token))
      (step JWT_SECRET (registered name email (bcrypt_hash password 10 (entropy w)) w)
         (Tick later)) =
      (mkClient (Some (JObj [("id", JOid (next_oid w)); ("name", JStr "User");
                             ("email", JStr email)]))
         false None (Some token),
       step JWT_SECRET (registered name email (bcrypt_hash password 10 (entropy w)) w)
         (Tick later))).
  { destruct (signed_token_presented _ _ _ _ _ Hsign) as [Hpresented Hstr].
    destruct (sign_transport _ _ _ _ _ Hsign) as [Hnonempty _].
    unfold AuthContext.useEffect, first_render. cbn [cl_token].
    rewrite (falsy_string _ Hnonempty). cbn [str].
    unfold AuthContext.verifyToken, AuthContext.fetch. cbn [handle].
    rewrite verify_paths, Hpresented, Hstr.
    cbn [step clock set_clock]. rewrite registered_clock.
    rewrite (verify_sign _ _ _ _ _ _ Hsign Hlater). reflexivity. }
  exists token. eexists. split; [exact Hclient|]. split; [exact Hreload|].
  rewrite Hclient, Hreload. unfold AuthContainer. cbn [fst cl_loading cl_user truthy].
  now split.
Qed.

(** X15. A registration whose answer is lost, and the retry. With the
    same premises and a database that answers three times, when the answer
    to [register] is lost the client ends with the error "Network error.
    Please try again." and neither user nor token, while the server holds
    the new account; registering again with the same fields is then refused
    and the client ends with the error "User already exists", still without
    user or token. *)
Theorem lost_answer_then_retry
  (key name email password : string) (c : Client) (w : World) :
  JWT_SECRET = Some key -> key <> EmptyString ->
  name <> EmptyString -> email <> EmptyString -> password <> EmptyString ->
  find (fun u => String.eqb (u_email u) email) (users w) = None ->
  db_ok 3 w = true ->
  let first := AuthContext.register JWT_SECRET String_other ResponseLost name email
                 password c w in
  let second := AuthContext.register JWT_SECRET String_other Delivered name email
                  password (fst first) (snd first) in
  fst first =
    mkClient (cl_user c) false (Some (JStr "Network error. Please try again."))
      (cl_token c)
  /\ count_email email (users (snd first)) = 1%nat
  /\ fst second =
       mkClient (cl_user c) false (Some (JStr "User already exists")) (cl_token c)
  /\ users (snd second) = users (snd first).
Proof.
  intros Hsecret Hkey Hname Hemail Hpassword Hfresh Hdb first second.
  apply db_ok_three in Hdb as (Hup1 & Hup2 & Hup3).
  set (req := mkRegister (Some email) (Some password) (Some name)).
  set (payload := mkPayload (next_oid w) email).
  destruct (jwt_sign payload JWT_SECRET expiresIn_7d (clock w)) as [token|] eqn:Hsign.
  2:{ rewrite Hsecret in Hsign. now apply sign_succeeds in Hsign. }
  pose proof (register_goes_through JWT_SECRET req w token
                (falsy_string _ Hname) (falsy_string _ Hemail)
                (falsy_string _ Hpassword) Hfresh Hup1 Hup2 Hsign) as Hregister.
  cbn [req r_name r_email r_password str] in Hregister.
  set (w1 := registered name email (bcrypt_hash password 10 (entropy w)) w) in *.
  assert (Hfirst : first =
            (mkClient (cl_user c) false
               (Some (JStr "Network error. Please try again.")) (cl_token c), w1)).
  { unfold first, AuthContext.register, AuthContext.fetch. cbn [handle].
    fold req. rewrite Hregister. reflexivity. }
  assert (Hfound : find (fun u => String.eqb (u_email u) email) (users w1) =
                   Some (mkUser (next_oid w) name email
                           (bcrypt_hash password 10 (entropy w)) (clock w))).
  { unfold w1. rewrite registered_users. apply find_after; [exact Hfresh|].
    cbn. apply String.eqb_refl. }
  assert (Hagain : register JWT_SECRET req w1 =
            (json 400 (message "User already exists"),
             called (FindByEmail email) w1)).
  { rewrite register_paths. cbv zeta. cbn [req r_name r_email r_password str].
    rewrite (falsy_string _ Hname), (falsy_string _ Hemail),
      (falsy_string _ Hpassword). cbn [orb].
    unfold faulty at 1. unfold w1 at 1. rewrite registered_faults, Hup3.
    now rewrite Hfound. }
  unfold second. rewrite Hfirst. cbn [fst snd]. repeat split.
  - apply count_email_find in Hfresh. unfold w1.
    rewrite registered_users, count_email_app, Hfresh. unfold count_email. cbn.
    now rewrite String.eqb_refl.
  - unfold AuthContext.register, AuthContext.fetch. cbn [handle].
    fold req. rewrite Hagain. reflexivity.
  - unfold AuthContext.register, AuthContext.fetch. cbn [handle].
    fold req. rewrite Hagain. reflexivity.
Qed.

End ClientSessions.

(** * The sample run, continued *)

Module PackagesFacts.

Import Codec CodecFacts.

(** The reference tokens expire. *)
Lemma reference_expires (mac : string -> string -> string) :
  JwtExpires (JwtRef.jsonwebtoken mac).
Proof.
  intros p s e now tok later Hsign Hlater. cbn [jwt_sign jwt_verify JwtRef.jsonwebtoken] in *.
  rewrite (JwtRefFacts.verify_issued _ _ _ _ _ _ later Hsign).
  apply N.leb_le in Hlater. rewrite Hlater. now exists Expired.
Qed.

(** The stand-in for bcryptjs compares a password equal to its hash. *)
Lemma standin_bcrypt_lawful : BcryptLawful Standin.bcryptjs.
Proof.
  intros password rounds salt. cbn [bcrypt_compare bcrypt_hash Standin.bcryptjs].
  unfold Standin.compare, Standin.digest at 1 2.
  repeat match goal with
         | |- context [ "$" ++ ?x ] => change ("$" ++ x) with (String "$" x)
         end.
  do 2 (rewrite cut_append by (apply digits_plain; now right); cbv iota).
  rewrite !undec_dec. apply String.eqb_refl.
Qed.

End PackagesFacts.

Module SampleMore.

Import Sample Visit.

(** A header with another scheme word and a trailer. *)
Lemma scheme_sample :
  srv_verify (Some ("Token" ++ " " ++ token)) w1 = srv_verify (Bearer token) w1
  /\ srv_verify (Some ("Token" ++ " " ++ token ++ " " ++ "and more")) w1 =
       srv_verify (Bearer token) w1
  /\ @profile Standin.jsonwebtoken secret (Some ("Token" ++ " " ++ token)) w1 =
       @profile Standin.jsonwebtoken secret (Bearer token) w1
  /\ @profile Standin.jsonwebtoken secret
       (Some ("Token" ++ " " ++ token ++ " " ++ "and more")) w1 =
       @profile Standin.jsonwebtoken secret (Bearer token) w1.
Proof.
  apply (@scheme_and_trailer_are_ignored Standin.jsonwebtoken secret
           "Token" token "and more" w1); reflexivity.
Defined.

Lemma emails_distinct_sample : NoDup (map u_email (users (srv_run busy_day w0))).
Proof.
  apply (@emails_stay_distinct Standin.bcryptjs Standin.jsonwebtoken secret
           busy_day w0).
  cbn. constructor.
Defined.

(** Ada registers and reads her profile an hour later. *)
Lemma profile_sample :
  exists (tok : string) (w' : World),
    srv_register ada w0 =
      (json 201 (auth_body "User created successfully" tok 1 "Ada"
                   "ada@example.com"), w')
    /\ fst (@profile Standin.jsonwebtoken secret (Bearer tok)
              (srv_step w' (Tick 3600000))) =
         json 200 (JObj [("user",
           JObj [("_id", JOid 1); ("name", JStr "Ada");
                 ("email", JStr "ada@example.com"); ("createdAt", JDate 1000000)])]).
Proof.
  apply (@register_then_profile Standin.bcryptjs Standin.jsonwebtoken secret
           (JwtRefFacts.reference_lawful Standin.mac) "server-secret" ada w0 3600000);
    solve [reflexivity | discriminate | constructor].
Defined.

(** Ada registers, logs in an hour later and has the token verified. *)
Lemma login_sample :
  exists (tok tok' : string) (wa wb : World) (claims : Claims),
    srv_register ada w0 =
      (json 201 (auth_body "User created successfully" tok 1 "Ada"
                   "ada@example.com"), wa)
    /\ srv_login (mkLogin (Some "ada@example.com") (Some "s3cret!"))
         (srv_step wa (Tick 3600000)) =
         (json 200 (auth_body "Login successful" tok' 1 "Ada" "ada@example.com"), wb)
    /\ srv_verify (Bearer tok') wb =
         (json 200 (JObj [("message", JStr "Token is valid");
                          ("user", claims_json claims)]), wb)
    /\ c_userId claims = 1
    /\ c_email claims = "ada@example.com".
Proof.
  apply (@register_then_login_then_verify Standin.bcryptjs Standin.jsonwebtoken secret
           (JwtRefFacts.reference_lawful Standin.mac) "server-secret" ada w0 3600000);
    solve [reflexivity | discriminate | apply PackagesFacts.standin_bcrypt_lawful].
Defined.

(** Ada logs in; her token is good for seven days. *)
Lemma lifetime_sample :
  exists (tok : string) (w' : World),
    srv_login (mkLogin (Some "ada@example.com") (Some "s3cret!")) w1 =
      (json 200 (auth_body "Login successful" tok 1 "Ada" "ada@example.com"), w')
    /\ forall later : N,
         ((clock w1 + later) / 1000 < clock w1 / 1000 + 604800 ->
          fst (srv_verify (Bearer tok) (srv_step w' (Tick later))) =
            json 200 (JObj [("message", JStr "Token is valid");
                            ("user", JObj [("userId", JOid 1);
                                           ("email", JStr "ada@example.com");
                                           ("iat", JNum (clock w1 / 1000));
                                           ("exp", JNum (clock w1 / 1000 + 604800))])]))
         /\ (clock w1 / 1000 + 604800 <= (clock w1 + later) / 1000 ->
             fst (srv_verify (Bearer tok) (srv_step w' (Tick later))) =
               json 403 (message "Invalid or expired token")).
Proof.
  apply (@login_token_lasts_seven_days Standin.bcryptjs Standin.jsonwebtoken secret
           (JwtRefFacts.reference_lawful Standin.mac) "server-secret"
           (mkLogin (Some "ada@example.com") (Some "s3cret!")) w1
           (mkUser 1 "Ada" "ada@example.com" "10$7$73336372657421" 1000000));
    solve [reflexivity | discriminate | apply PackagesFacts.reference_expires].
Defined.

(** Ada registers through the client and reloads the page an hour later. *)
Lemma client_sample :
  exists (tok : string) (w' : World),
    @AuthContext.register Standin.bcryptjs Standin.jsonwebtoken secret undefined_text
      Delivered "Ada" "ada@example.com" "s3cret!" (first_render None) w0 =
      (mkClient (Some (JObj [("id", JOid 1); ("name", JStr "Ada");
                             ("email", JStr "ada@example.com")]))
         false None (Some tok), w')
    /\ @AuthContext.useEffect Standin.bcryptjs Standin.jsonwebtoken secret Delivered
         (first_render (Some tok)) (srv_step w' (Tick 3600000)) =
         (mkClient (Some (JObj [("id", JOid 1); ("name", JStr "User");
                                ("email", JStr "ada@example.com")]))
            false None (Some tok), srv_step w' (Tick 3600000))
    /\ AuthContainer true
         (fst (@AuthContext.register Standin.bcryptjs Standin.jsonwebtoken secret
                 undefined_text Delivered "Ada" "ada@example.com" "s3cret!"
                 (first_render None) w0)) = ShowDashboard
    /\ AuthContainer true
         (fst (@AuthContext.useEffect Standin.bcryptjs Standin.jsonwebtoken secret
                 Delivered (first_render (Some tok)) (srv_step w' (Tick 3600000)))) =
       ShowDashboard.
Proof.
  apply (@client_registration_and_reload Standin.bcryptjs Standin.jsonwebtoken
           (JwtRefFacts.reference_lawful Standin.mac) secret undefined_text
           "server-secret" "Ada" "ada@example.com" "s3cret!" (first_render None) w0
           3600000 true);
    solve [reflexivity | discriminate].
Defined.

(** The answer to Ada's registration is lost and she tries again. *)
Lemma retry_sample :
  let first := @AuthContext.register Standin.bcryptjs Standin.jsonwebtoken secret
                 undefined_text ResponseLost "Ada" "ada@example.com" "s3cret!"
                 (first_render None) w0 in
  let second := @AuthContext.register Standin.bcryptjs Standin.jsonwebtoken secret
                  undefined_text Delivered "Ada" "ada@example.com" "s3cret!"
                  (fst first) (snd first) in
  fst first =
    mkClient None false (Some (JStr "Network error. Please try again.")) None
  /\ count_email "ada@example.com" (users (snd first)) = 1%nat
  /\ fst second = mkClient None false (Some (JStr "User already exists")) None
  /\ users (snd second) = users (snd first).
Proof.
  apply (@lost_answer_then_retry Standin.bcryptjs Standin.jsonwebtoken
           (JwtRefFacts.reference_lawful Standin.mac) secret undefined_text
           "server-secret" "Ada" "ada@example.com" "s3cret!" (first_render None) w0);
    solve [reflexivity | discriminate].
Defined.

End SampleMore.

(** * The routes on whatever body arrives *)



Section AnyBodyFacts.

Context {bcrypt : Bcrypt} {jwt : Jwt}.

Variable JWT_SECRET : option string.

Variable find_other : option Parsed -> M (option UserDoc).

Variable store_other : option Parsed -> option Parsed -> string -> N -> M Response.









(** C3, where the server falls short. A login whose password is truthy
    but not a string, a number say, is answered 400 "Invalid credentials"
    when no document has the email, but 500 "Server error" when one has:
    [bcrypt.compare] is reached only then and rejects what is not a
    string. The two answers tell a known email from an unknown one. *)
Theorem login_tells_a_known_email_by_a_server_error
  (body : Parsed) (email : string) (password : Parsed)
  (w_known w_unknown : World) (user : UserDoc) :
  prop "email" body = Some (PStr email) -> email <> EmptyString ->
  prop "password" body = Some password ->
  falsy_any (Some password) = false ->
  as_text (Some password) = None ->
  faulty w_known = false -> faulty w_unknown = false ->
  find (fun u => String.eqb (u_email u) email) (users w_known) = Some user ->
  find (fun u => String.eqb (u_email u) email) (users w_unknown) = None ->
  fst (login_any JWT_SECRET find_other (Some body) w_known) =
    json 500 (message "Server error")
  /\ fst (login_any JWT_SECRET find_other (Some body) w_unknown) =
       json 400 (message "Invalid credentials")
  /\ fst (login_any JWT_SECRET find_other (Some body) w_known) <>
       fst (login_any JWT_SECRET find_other (Some body) w_unknown).
Proof.
  intros Hemail Hnonempty Hpassword Htruthy Hnotstring Hup1 Hup2 Hknown Hunknown.
  assert (Hbody : body <> PNull) by (intros ->; discriminate).
  assert (Hanswers :
    fst (login_any JWT_SECRET find_other (Some body) w_known) =
      json 500 (message "Server error")
    /\ fst (login_any JWT_SECRET find_other (Some body) w_unknown) =
         json 400 (message "Invalid credentials")).
  { unfold login_any, try_catch, bind.
    destruct body; try congruence; cbv zeta;
      rewrite Hemail, Hpassword, Htruthy;
      (destruct email as [|a email]; [congruence|]);
      cbn [falsy_any orb findOne_any]; unfold findOne_email, store_call;
      rewrite Hup1, Hup2; cbn [users called set_faults set_oplog];
      rewrite Hknown, Hunknown;
      (destruct password as [| | |text| |]; try discriminate; now split). }
  destruct Hanswers as [Hfirst Hsecond]. rewrite Hfirst, Hsecond.
  repeat split. discriminate.
Qed.


End AnyBodyFacts.

Module SampleAny.

Import Sample Visit.


(** Ada is registered in [w1] and not in [w0]: the password 12345, a
    number, gets 500 in the one and 400 in the other. *)
Lemma number_password_sample :
  fst (any_login (Some ada_12345) w1) = json 500 (message "Server error")
  /\ fst (any_login (Some ada_12345) w0) = json 400 (message "Invalid credentials")
  /\ fst (any_login (Some ada_12345) w1) <> fst (any_login (Some ada_12345) w0).
Proof.
  apply (@login_tells_a_known_email_by_a_server_error Standin.bcryptjs
           Standin.jsonwebtoken secret no_match ada_12345 "ada@example.com"
           (PNum 12345) w1 w0
           (mkUser 1 "Ada" "ada@example.com" "10$7$73336372657421" 1000000));
    solve [reflexivity | discriminate].
Defined.

(** In one and the same world, with Ada registered and Bob not. *)
Example number_password_ada_and_bob :
  fst (any_login (Some ada_12345) w1) = json 500 (message "Server error")
  /\ fst (any_login (Some bob_12345) w1) = json 400 (message "Invalid credentials").
Proof. split; reflexivity. Qed.

End SampleAny.
